(** * GitHub-Analyser: the /api/analyze pipeline

    A shallow embedding of the request-validation, rate-limiting,
    aggregation and scoring code of the repository, and the properties
    its specification states about them.

    Conventions of the embedding.
    - A JavaScript string is the sequence of its UTF-16 code units; the
      model keeps the code units below 256, so a string is a Rocq
      [string] and a code unit an [ascii].
    - [Date.now()] and [new Date()] are inputs of the functions that read
      them: a time is a [Z], in milliseconds since the epoch.
    - The process-wide [rateLimitMap] is threaded through the functions
      that read or write it.
    - A function that can throw returns a sum: [inl] the exception,
      [inr] the value. *)

From Stdlib Require Import ZArith QArith Qminmax Lqa List String Ascii Bool Lia.
From Stdlib Require Import Sorted Permutation.
From stdpp Require Import gmap strings pretty.

Set Warnings "-register-all".

Local Open Scope string_scope.
Local Open Scope Z_scope.

(** ** Strings *)

Module JsString.

(** The code units [String.prototype.trim] removes: WhiteSpace and
    LineTerminator (TAB, LF, VT, FF, CR, SP, NBSP below 256). *)
Definition isWhiteSpace (c : ascii) : bool :=
  let n := N_of_ascii c in
  ((9 <=? n)%N && (n <=? 13)%N) || (n =? 32)%N || (n =? 160)%N.

Fixpoint trimStart (s : string) : string :=
  match s with
  | String c s' => if isWhiteSpace c then trimStart s' else s
  | EmptyString => EmptyString
  end.

Fixpoint trimEnd (s : string) : string :=
  match s with
  | String c s' =>
      match trimEnd s' with
      | EmptyString => if isWhiteSpace c then EmptyString else String c EmptyString
      | t => String c t
      end
  | EmptyString => EmptyString
  end.

Definition trim (s : string) : string := trimEnd (trimStart s).

(** [s.length], as an integer. *)
Definition length (s : string) : Z := Z.of_nat (String.length s).

(** [s.split(",")]: never empty; the empty string splits to [[""]]. *)
Fixpoint split_comma (s : string) : list string :=
  match s with
  | EmptyString => [EmptyString]
  | String c s' =>
      if Ascii.eqb c "," then EmptyString :: split_comma s'
      else match split_comma s' with
           | x :: xs => String c x :: xs
           | [] => [String c EmptyString]
           end
  end.

(** [String.prototype.toLowerCase] on code units below 256: A-Z and the
    Latin-1 capitals (all of 192..222 but the multiplication sign). *)
Definition lowerChar (c : ascii) : ascii :=
  let n := N_of_ascii c in
  if ((65 <=? n)%N && (n <=? 90)%N)
     || ((192 <=? n)%N && (n <=? 222)%N && negb (n =? 215)%N)
  then ascii_of_N (n + 32) else c.

Fixpoint toLowerCase (s : string) : string :=
  match s with
  | String c s' => String (lowerChar c) (toLowerCase s')
  | EmptyString => EmptyString
  end.

(** A string is truthy when it is not empty. *)
Definition truthy (s : string) : bool :=
  match s with EmptyString => false | _ => true end.

(** [arr.includes(s)] on an array of strings. *)
Definition includes (arr : list string) (s : string) : bool :=
  existsb (String.eqb s) arr.

(** [arr.join(", ")]. *)
Fixpoint join (sep : string) (arr : list string) : string :=
  match arr with
  | [] => ""
  | [x] => x
  | x :: xs => x ++ sep ++ join sep xs
  end.

(** [s.repeat(count)]. *)
Fixpoint repeat (s : string) (count : nat) : string :=
  match count with
  | O => ""
  | S n => s ++ repeat s n
  end.

End JsString.

(** ** The rate limiter *)

Record RateLimitRecord := { count : Z; resetAt : Z }.

(** The object [checkRateLimit] returns: [{ allowed, remaining, resetAt }]. *)
Record RateLimitStatus :=
  { allowed : bool; remaining : Z; status_resetAt : Z }.

(** [checkRateLimit(identifier, maxRequests, windowMs)], reading [now] from
    the clock and the record of [identifier] from [rateLimitMap]. Updating
    the fields of the stored record is an update of the map at its key. *)
Definition checkRateLimit (now : Z) (identifier : string)
    (maxRequests windowMs : Z) (rateLimitMap : gmap string RateLimitRecord)
  : RateLimitStatus * gmap string RateLimitRecord :=
  let key := identifier in
  match rateLimitMap !! key with
  | None =>
      ({| allowed := true; remaining := maxRequests - 1;
          status_resetAt := now + windowMs |},
       <[key := {| count := 1; resetAt := now + windowMs |}]> rateLimitMap)
  | Some record =>
      if now >? resetAt record then
        ({| allowed := true; remaining := maxRequests - 1;
            status_resetAt := now + windowMs |},
         <[key := {| count := 1; resetAt := now + windowMs |}]> rateLimitMap)
      else if count record >=? maxRequests then
        ({| allowed := false; remaining := 0;
            status_resetAt := resetAt record |},
         rateLimitMap)
      else
        ({| allowed := true; remaining := maxRequests - (count record + 1);
            status_resetAt := resetAt record |},
         <[key := {| count := count record + 1; resetAt := resetAt record |}]>
           rateLimitMap)
  end.

(** A run of the limiter: the calls are served one after the other, each
    to completion ([checkRateLimit] has no suspension point), in the order
    of the list. A call is the identifier and the time it reads. *)
Fixpoint serve (calls : list (string * Z)) (maxRequests windowMs : Z)
    (rateLimitMap : gmap string RateLimitRecord)
  : list (string * RateLimitStatus) * gmap string RateLimitRecord :=
  match calls with
  | [] => ([], rateLimitMap)
  | (identifier, now) :: rest =>
      let '(status, m1) :=
        checkRateLimit now identifier maxRequests windowMs rateLimitMap in
      let '(statuses, m2) := serve rest maxRequests windowMs m1 in
      ((identifier, status) :: statuses, m2)
  end.

(** The calls of one identifier, and how many of them were admitted. *)
Definition callsOf (identifier : string) (calls : list (string * Z)) : list Z :=
  List.map snd (List.filter (fun c => String.eqb (fst c) identifier) calls).

Definition admitted (identifier : string)
    (statuses : list (string * RateLimitStatus)) : nat :=
  List.length
    (List.filter (fun r => String.eqb (fst r) identifier && allowed (snd r)) statuses).

Definition denied (identifier : string)
    (statuses : list (string * RateLimitStatus)) : nat :=
  List.length
    (List.filter (fun r => String.eqb (fst r) identifier && negb (allowed (snd r)))
       statuses).

(** The call at [now] opens a window for [identifier]: it is the first
    sight of the identifier, or the stored window has expired. *)
Definition opensWindow (rateLimitMap : gmap string RateLimitRecord)
    (identifier : string) (now : Z) : Prop :=
  match rateLimitMap !! identifier with
  | None => True
  | Some record => resetAt record < now
  end.

(** The calls of [identifier] fall in one window: the first one opens it
    and no later one is issued after its [resetAt]. *)
Definition withinOneWindow (rateLimitMap : gmap string RateLimitRecord)
    (identifier : string) (windowMs : Z) (calls : list (string * Z)) : Prop :=
  match callsOf identifier calls with
  | [] => True
  | first :: later =>
      opensWindow rateLimitMap identifier first
      /\ Forall (fun now => now <= first + windowMs) later
  end.

(** ** Exceptions *)

(** The [type] argument of [CustomError]: static constants of the class. *)
Inductive ErrorType := MISSING_PARAMETER | API_ERROR.

(** Modelled from the spec: common/error.js is not part of the sources.
    What the code throws and catches: [MissingParamError] and
    [CustomError] are the two classes of common/error.js, told apart by
    [instanceof]; an [AxiosError] is what [axios.isAxiosError] recognises,
    kept with the three things the code reads from it
    ([error.response?.status], [error.response?.data?.error?.message] and
    [error.message]); [OtherError] is any other thrown value, such as a
    [TypeError]. *)
Inductive Exception :=
| MissingParamError (missedParams : list string)
| CustomError (message : string) (type : ErrorType)
| AxiosError (status : option Z) (dataErrorMessage : option string)
    (message : string)
| OtherError (message : string).

(** ** The data aggregator (data-aggregator.js)

    The numbers of this file are JavaScript doubles. The counts are
    integers; a quotient of two of them is kept as the exact rational. *)

Definition Qltb (x y : Q) : bool := negb (Qle_bool y x).

Definition calculateCommitFrequency (totalCommits accountAgeYears : Z) : string :=
  if accountAgeYears =? 0 then "low"
  else
    let commitsPerYear := (inject_Z totalCommits / inject_Z accountAgeYears)%Q in
    if Qltb commitsPerYear 50 then "low"
    else if Qltb commitsPerYear 200 then "medium"
    else "high".

Definition calculateCommitConsistency (totalCommits accountAgeYears : Z) : string :=
  if accountAgeYears =? 0 then "sporadic"
  else
    let commitsPerYear := (inject_Z totalCommits / inject_Z accountAgeYears)%Q in
    let commitsPerMonth := (commitsPerYear / 12)%Q in
    if Qltb commitsPerMonth 2 then "sporadic"
    else if Qltb commitsPerMonth 10 then "consistent"
    else "very_consistent".

(** A repository object of the [top_repositories] array; [description]
    may be null. *)
Record TopRepository := {
  repo_name : string;
  stars : Z;
  forks : Z;
  is_original_work : bool;
  description : option string
}.

(** [repo.description && repo.description.length > n]. *)
Definition hasDescriptionLongerThan (n : Z) (repo : TopRepository) : bool :=
  match description repo with
  | Some d => JsString.truthy d && (JsString.length d >? n)
  | None => false
  end.

Definition assessReadmeQuality (repositories : list TopRepository) : string :=
  if (Z.of_nat (List.length repositories) =? 0) then "poor"
  else
    let reposWithDescriptions :=
      Z.of_nat (List.length (List.filter (hasDescriptionLongerThan 20) repositories)) in
    let ratio :=
      (inject_Z reposWithDescriptions
       / inject_Z (Z.of_nat (List.length repositories)))%Q in
    if Qltb ratio (3 # 10) then "poor"
    else if Qltb ratio (7 # 10) then "average"
    else "strong".

Definition assessDocumentationSignal (repositories : list TopRepository) : string :=
  if (Z.of_nat (List.length repositories) =? 0) then "low"
  else
    let reposWithDescriptions :=
      Z.of_nat (List.length (List.filter (hasDescriptionLongerThan 30) repositories)) in
    let ratio :=
      (inject_Z reposWithDescriptions
       / inject_Z (Z.of_nat (List.length repositories)))%Q in
    if Qltb ratio (4 # 10) then "low"
    else if Qltb ratio (7 # 10) then "medium"
    else "high".

Record CollaborationSignals := {
  solo_projects_ratio : Q;
  team_projects_ratio : Q
}.

Definition calculateCollaborationSignals (repositories : list TopRepository)
    (contributedTo : Z) : CollaborationSignals :=
  let totalRepos := Z.of_nat (List.length repositories) in
  if totalRepos =? 0 then
    {| solo_projects_ratio := 1; team_projects_ratio := 0 |}
  else
    let teamProjectsRatio :=
      Qmin (inject_Z contributedTo / inject_Z (totalRepos + contributedTo)) 1 in
    let soloProjectsRatio := (1 - teamProjectsRatio)%Q in
    {| solo_projects_ratio := soloProjectsRatio;
       team_projects_ratio := teamProjectsRatio |}.

(** The [user] node of the GraphQL answer; [createdAt] is the time its
    DateTime denotes. *)
Record UserNode := {
  repositories_totalCount : Z;
  followers_totalCount : Z;
  createdAt : Z
}.

(** [res.data] of the profile query: it carries [errors], or [data.user]
    (null for no user). *)
Inductive ProfileResponse :=
| ResErrors
| ResData (user : option UserNode).

Record Profile := {
  public_repos : Z;
  followers : Z;
  account_age_years : Z
}.

(** [fetchUserProfile(username)]: [res] is what [retryer] settles with and
    [now] what [new Date()] reads. *)
Definition fetchUserProfile (now : Z) (res : Exception + ProfileResponse)
  : Exception + Profile :=
  match res with
  | inl e => inl e
  | inr ResErrors =>
      inr {| public_repos := 0; followers := 0; account_age_years := 1 |}
  | inr (ResData None) =>
      inl (OtherError "TypeError: Cannot read properties of null")
  | inr (ResData (Some user)) =>
      let accountAgeYears :=
        Z.max 1 ((now - createdAt user) / (1000 * 60 * 60 * 24 * 365)) in
      inr {| public_repos := repositories_totalCount user;
             followers := followers_totalCount user;
             account_age_years := accountAgeYears |}
  end.

(** What [fetchStats] resolves with. *)
Record Stats := {
  totalCommits : Z;
  totalPRs : Z;
  totalPRsMerged : Z;
  totalReviews : Z;
  totalIssues : Z;
  contributedTo : Z
}.

(** A value of the object [fetchTopLanguages] resolves with;
    [Object.values] lists them in insertion order. *)
Record Lang := { lang_name : string; lang_size : Z }.

Record PrimaryLanguage := { language : string; percentage : Q }.

(** [.sort((a, b) => b.percentage - a.percentage)]: descending, stable. *)
Fixpoint insertByPercentage (x : PrimaryLanguage) (l : list PrimaryLanguage)
  : list PrimaryLanguage :=
  match l with
  | [] => [x]
  | y :: l' =>
      if Qle_bool (percentage y) (percentage x) then x :: l
      else y :: insertByPercentage x l'
  end.

Definition sortByPercentage (l : list PrimaryLanguage) : list PrimaryLanguage :=
  fold_right insertByPercentage [] l.

(** The job role the handler parses from the query. *)
Record JobRole := {
  title : string;
  required_skills : list string;
  nice_to_have_skills : list string;
  seniority : string;
  focus : string
}.

Record CandidateProfile := { username : string; profile : Profile }.

Record PullRequestStats := { opened : Z; merged : Z; reviewed : Z }.

Record IssueStats := { issues_opened : Z; issues_closed : Z }.

Record GitHubStats := {
  total_commits_estimate : Z;
  commit_frequency : string;
  commit_consistency : string;
  primary_languages : list PrimaryLanguage;
  top_repositories : list TopRepository;
  pull_requests : PullRequestStats;
  issues : IssueStats;
  collaboration_signals : CollaborationSignals;
  readme_quality : string;
  documentation_signal : string
}.

Record AnalyzerInput := {
  candidate : CandidateProfile;
  github_stats : GitHubStats;
  job_role : option JobRole
}.

(** [aggregateGitHubData(username, options)]: [fetched] is what
    [await Promise.all([fetchStats, fetchTopLanguages, fetchUserProfile])]
    gives, the three results or the rejection, which is logged and thrown
    again. [options.include_all_commits] is read by [fetchStats] only. *)
Definition aggregateGitHubData (user : string)
    (fetched : Exception + (Stats * list Lang * Profile))
  : Exception + AnalyzerInput :=
  match fetched with
  | inl error => inl error
  | inr (stats, topLangs, profile) =>
      let accountAgeYears := account_age_years profile in
      let totalLangSize :=
        fold_left (fun sum lang => sum + lang_size lang) topLangs 0 in
      let primaryLanguages :=
        firstn 5
          (sortByPercentage
             (List.map
                (fun lang =>
                   {| language := lang_name lang;
                      percentage :=
                        if totalLangSize >? 0
                        then (inject_Z (lang_size lang) / inject_Z totalLangSize
                              * 100)%Q
                        else 0%Q |})
                topLangs)) in
      let topRepositories : list TopRepository := [] in
      let commitFrequency :=
        calculateCommitFrequency (totalCommits stats) accountAgeYears in
      let commitConsistency :=
        calculateCommitConsistency (totalCommits stats) accountAgeYears in
      let collaborationSignals :=
        calculateCollaborationSignals topRepositories (contributedTo stats) in
      let readmeQuality := assessReadmeQuality topRepositories in
      let documentationSignal := assessDocumentationSignal topRepositories in
      inr {| candidate :=
               {| username := user;
                  profile :=
                    {| public_repos := public_repos profile;
                       followers := followers profile;
                       account_age_years := accountAgeYears |} |};
             github_stats :=
               {| total_commits_estimate := totalCommits stats;
                  commit_frequency := commitFrequency;
                  commit_consistency := commitConsistency;
                  primary_languages := primaryLanguages;
                  top_repositories := topRepositories;
                  pull_requests :=
                    {| opened := totalPRs stats;
                       merged := totalPRsMerged stats;
                       reviewed := totalReviews stats |};
                  issues :=
                    {| issues_opened := 0; issues_closed := totalIssues stats |};
                  collaboration_signals := collaborationSignals;
                  readme_quality := readmeQuality;
                  documentation_signal := documentationSignal |};
             job_role := None |}
  end.

(** ** JavaScript values of the scoring client

    A number is a double: NaN, an infinity, or a finite value, kept as
    the exact rational it denotes. *)

Inductive number := NaN | Num (q : Q) | PosInfinity | NegInfinity.

(** [a < b] on numbers; false when either is NaN. *)
Definition number_ltb (a b : number) : bool :=
  match a, b with
  | NaN, _ | _, NaN => false
  | Num x, Num y => Qltb x y
  | NegInfinity, NegInfinity => false
  | NegInfinity, _ => true
  | _, NegInfinity => false
  | PosInfinity, _ => false
  | _, PosInfinity => true
  end.

(** [Math.min(a, b)] and [Math.max(a, b)]: NaN when either is NaN. *)
Definition Math_min (a b : number) : number :=
  match a, b with
  | NaN, _ | _, NaN => NaN
  | _, _ => if number_ltb b a then b else a
  end.

Definition Math_max (a b : number) : number :=
  match a, b with
  | NaN, _ | _, NaN => NaN
  | _, _ => if number_ltb a b then b else a
  end.

(** What [JSON.parse] builds. The members of an object have distinct
    keys. *)
Inductive JSON :=
| JNull
| JBool (b : bool)
| JNumber (n : number)
| JString (s : string)
| JArray (items : list JSON)
| JObject (members : list (string * JSON)).

Fixpoint lookupMember (key : string) (members : list (string * JSON))
  : option JSON :=
  match members with
  | [] => None
  | (k, v) :: rest => if String.eqb k key then Some v else lookupMember key rest
  end.

Fixpoint setMember (key : string) (value : JSON)
    (members : list (string * JSON)) : list (string * JSON) :=
  match members with
  | [] => [(key, value)]
  | (k, v) :: rest =>
      if String.eqb k key then (k, value) :: rest
      else (k, v) :: setMember key value rest
  end.

(** [v.key] for a key no prototype defines: the member of an object,
    [None] (undefined) on any other value but null, where it throws. *)
Definition getProperty (v : JSON) (key : string) : option JSON :=
  match v with
  | JObject members => lookupMember key members
  | _ => None
  end.

(** Truthiness: null, false, 0, NaN and the empty string are falsy. *)
Definition truthy (v : JSON) : bool :=
  match v with
  | JNull => false
  | JBool b => b
  | JNumber NaN => false
  | JNumber (Num q) => negb (Qeq_bool q 0)
  | JNumber _ => true
  | JString s => JsString.truthy s
  | JArray _ | JObject _ => true
  end.

(** [!v] for a property that may be undefined. *)
Definition falsy (v : option JSON) : bool :=
  match v with
  | None => true
  | Some v => negb (truthy v)
  end.

(** *** StringToNumber: the StringNumericLiteral grammar *)

Definition digitValue (base : Z) (c : ascii) : option Z :=
  let n := Z.of_N (N_of_ascii c) in
  let d :=
    if (48 <=? n) && (n <=? 57) then Some (n - 48)
    else if (97 <=? n) && (n <=? 102) then Some (n - 87)
    else if (65 <=? n) && (n <=? 70) then Some (n - 55)
    else None in
  match d with
  | Some v => if v <? base then Some v else None
  | None => None
  end.

(** The longest prefix of digits: its value, its length and the rest. *)
Fixpoint readDigits (base : Z) (s : string) (acc : Z) (len : nat)
  : Z * nat * string :=
  match s with
  | String c s' =>
      match digitValue base c with
      | Some d => readDigits base s' (acc * base + d) (S len)
      | None => (acc, len, s)
      end
  | EmptyString => (acc, len, s)
  end.

(** Digits up to the end of the string, at least one. *)
Definition allDigits (base : Z) (s : string) : option Z :=
  match readDigits base s 0 0 with
  | (v, S _, EmptyString) => Some v
  | _ => None
  end.

(** The ExponentPart, optional, up to the end of the string. *)
Definition parseExponent (s : string) : option Z :=
  match s with
  | EmptyString => Some 0
  | String c s1 =>
      if Ascii.eqb c "e" || Ascii.eqb c "E" then
        match s1 with
        | String "+" s2 => allDigits 10 s2
        | String "-" s2 => option_map Z.opp (allDigits 10 s2)
        | _ => allDigits 10 s1
        end
      else None
  end.

(** StrUnsignedDecimalLiteral. *)
Definition parseUnsignedDecimal (s : string) : option number :=
  if String.eqb s "Infinity" then Some PosInfinity
  else
    let '(int, intLen, afterInt) := readDigits 10 s 0 0 in
    let '(frac, fracLen, afterFrac) :=
      match afterInt with
      | String "." s' => readDigits 10 s' 0 0
      | _ => (0, 0%nat, afterInt)
      end in
    if ((intLen =? 0)%nat && (fracLen =? 0)%nat) then None
    else
      match parseExponent afterFrac with
      | Some e =>
          Some (Num ((inject_Z int
                      + inject_Z frac / inject_Z (10 ^ Z.of_nat fracLen))
                     * Qpower 10 e))
      | None => None
      end.

Definition negate (n : number) : number :=
  match n with
  | NaN => NaN
  | Num q => Num (- q)
  | PosInfinity => NegInfinity
  | NegInfinity => PosInfinity
  end.

(** [Number(s)] for a string: white space is trimmed, the empty string
    is 0, a string outside the grammar is NaN. *)
Definition StringToNumber (s : string) : number :=
  let t := JsString.trim s in
  let ofOption (o : option number) :=
    match o with Some n => n | None => NaN end in
  match t with
  | EmptyString => Num 0
  | String "0" (String p ds) =>
      if Ascii.eqb p "x" || Ascii.eqb p "X"
      then ofOption (option_map (fun v => Num (inject_Z v)) (allDigits 16 ds))
      else if Ascii.eqb p "o" || Ascii.eqb p "O"
      then ofOption (option_map (fun v => Num (inject_Z v)) (allDigits 8 ds))
      else if Ascii.eqb p "b" || Ascii.eqb p "B"
      then ofOption (option_map (fun v => Num (inject_Z v)) (allDigits 2 ds))
      else ofOption (parseUnsignedDecimal t)
  | String "+" u => ofOption (parseUnsignedDecimal u)
  | String "-" u => ofOption (option_map negate (parseUnsignedDecimal u))
  | _ => ofOption (parseUnsignedDecimal t)
  end.

(** *** ToNumber on parsed values

    An object or array is first made a string. A parsed object has no
    callable member, so its own [toString] member makes the conversion
    throw a TypeError, and any other object reads "[object Object]". An
    array is the join of its items with ",", null items reading as the
    empty string. *)

Definition hasOwn (key : string) (members : list (string * JSON)) : bool :=
  existsb (fun m => String.eqb (fst m) key) members.

Fixpoint toStringThrows (v : JSON) : bool :=
  match v with
  | JObject members => hasOwn "toString" members
  | JArray items => existsb toStringThrows items
  | _ => false
  end.

(** The number the string of [v] denotes, when making the string does
    not throw: the string of a number denotes the number, the join of two
    or more items holds a comma and so denotes no number. *)
Fixpoint numberOfString (v : JSON) : number :=
  match v with
  | JNull => NaN
  | JBool _ => NaN
  | JNumber n => n
  | JString s => StringToNumber s
  | JObject _ => NaN
  | JArray [] => Num 0
  | JArray [JNull] => Num 0
  | JArray [item] => numberOfString item
  | JArray _ => NaN
  end.

Definition ToNumber (v : JSON) : Exception + number :=
  match v with
  | JNull => inr (Num 0)
  | JBool b => inr (Num (if b then 1 else 0))
  | JNumber n => inr n
  | JString s => inr (StringToNumber s)
  | JArray _ | JObject _ =>
      if toStringThrows v
      then inl (OtherError "TypeError: Cannot convert object to primitive value")
      else inr (numberOfString v)
  end.

(** ** The scoring client (openai-client.js) *)

Definition bind {A B : Type} (m : Exception + A) (f : A -> Exception + B)
  : Exception + B :=
  match m with
  | inl e => inl e
  | inr a => f a
  end.

Notation "'let?' x ':=' m 'in' k" := (bind m (fun x => k))
  (at level 10, x name, m at level 200, k at level 200).

(** The statements of [analyzeWithOpenAI] that follow [JSON.parse]:
    "Validate response structure" and "Validate confidence_percentage if
    present". The assignment to
    [analysis.hiring_recommendation.confidence_percentage] rebuilds the two
    objects on its path. *)
Definition checkAnalysis (analysis : JSON) : Exception + JSON :=
  match analysis with
  | JNull => inl (OtherError "TypeError: Cannot read properties of null")
  | _ =>
      if falsy (getProperty analysis "engineer_summary")
         || falsy (getProperty analysis "job_fit_analysis")
         || falsy (getProperty analysis "hiring_recommendation")
         || falsy (getProperty analysis "recommendations")
      then inl (CustomError "Invalid analysis response structure from OpenAI"
                  API_ERROR)
      else
        match analysis, getProperty analysis "hiring_recommendation" with
        | JObject members, Some (JObject recommendation) =>
            match lookupMember "confidence_percentage" recommendation with
            | Some confidence =>
                if match confidence with
                   | JNumber n => number_ltb n (Num 0) || number_ltb (Num 100) n
                   | _ => true
                   end
                then
                  let? n := ToNumber (if truthy confidence then confidence
                                      else JNumber (Num 50)) in
                  let clamped := Math_max (Num 0) (Math_min (Num 100) n) in
                  inr (JObject
                         (setMember "hiring_recommendation"
                            (JObject
                               (setMember "confidence_percentage"
                                  (JNumber clamped) recommendation))
                            members))
                else inr analysis
            | None => inr analysis
            end
        | _, _ => inr analysis
        end
  end.

Section ScoringClient.

(** [JSON.parse(content)]; [None] when it throws. *)
Variable JSON_parse : string -> option JSON.

(** The [axios.post] to the chat-completions endpoint, given the model,
    the system prompt, the input data and the API key: the error it
    rejects with, or [response.data.choices[0]?.message?.content]. *)
Variable axios_post :
  string -> string -> AnalyzerInput -> string -> Exception + option string.

Definition analyzeWithOpenAI (systemPrompt : string) (inputData : AnalyzerInput)
    (apiKey : option string) (model : string) : Exception + JSON :=
  match apiKey with
  | None | Some EmptyString =>
      inl (CustomError
             "OpenAI API key is required. Set OPENAI_API_KEY environment variable."
             MISSING_PARAMETER)
  | Some key =>
      let attempt :=
        let? content := axios_post model systemPrompt inputData key in
        match content with
        | None | Some EmptyString =>
            inl (CustomError "No response content from OpenAI" API_ERROR)
        | Some content =>
            match JSON_parse content with
            | None =>
                inl (CustomError "Invalid JSON response from OpenAI" API_ERROR)
            | Some analysis => checkAnalysis analysis
            end
        end in
      match attempt with
      | inl (AxiosError status dataErrorMessage message) =>
          match status with
          | Some 401 => inl (CustomError "Invalid OpenAI API key" API_ERROR)
          | Some 429 =>
              inl (CustomError "OpenAI API rate limit exceeded" API_ERROR)
          | _ =>
              inl (CustomError
                     ("OpenAI API error: "
                      ++ match dataErrorMessage with
                         | Some (String c s) => String c s
                         | _ => message
                         end)
                     API_ERROR)
          end
      | other => other
      end
  end.

End ScoringClient.

(** Whether a value is a number in the range 0..100. *)
Definition inConfidenceRange (v : JSON) : bool :=
  match v with
  | JNumber (Num q) => Qle_bool 0 q && Qle_bool q 100
  | _ => false
  end.

(** [analysis.hiring_recommendation.confidence_percentage]. *)
Definition confidencePercentage (analysis : JSON) : option JSON :=
  match getProperty analysis "hiring_recommendation" with
  | Some recommendation => getProperty recommendation "confidence_percentage"
  | None => None
  end.

(** A response with the four sections and the given
    [hiring_recommendation.confidence_percentage]. *)
Definition analysisWithConfidence (confidence : JSON) : JSON :=
  JObject
    [("engineer_summary", JObject [("inferred_seniority", JString "Mid-level")]);
     ("job_fit_analysis", JObject [("overall_fit", JString "strong")]);
     ("hiring_recommendation",
      JObject [("decision", JString "Hire");
               ("confidence_level", JString "high");
               ("confidence_percentage", confidence);
               ("justification", JString "Relevant experience")]);
     ("recommendations", JObject [("github_improvements", JArray [])])].

(** ** Requests and responses *)

(** A value of [req.query]: a string, or an array when the parameter is
    repeated. An absent parameter is undefined, [None]. *)
Inductive QueryValue :=
| QString (s : string)
| QArray (items : list string).

Record Request := {
  headers : gmap string string;
  socket_remoteAddress : option string;
  query : gmap string QueryValue
}.

(** [!v] for a query parameter: undefined and the empty string are
    falsy, an array is an object and so truthy. *)
Definition absent (v : option QueryValue) : bool :=
  match v with
  | None | Some (QString EmptyString) => true
  | Some _ => false
  end.

(** The value of a response header: a string, or the
    [new Date(t).toISOString()] of a time. *)
Inductive HeaderValue :=
| HString (s : string)
| HIsoDate (t : Z).

Inductive Body :=
| ErrorBody (error : string)
| RateLimitBody (error : string) (retryAfter : Z)
| AnalysisBody (analysis : JSON).

Record Response := { status : Z; body : Body }.

(** The options object the handler passes to [analyzeCandidate]. *)
Record Options := {
  include_all_commits : option bool;
  openai_api_key : string;
  model : string
}.

(** What a handler does besides answering, in the order it does it. *)
Inductive Effect :=
| SetHeader (name : string) (value : HeaderValue)
| SetCacheHeaders (cacheSeconds : Z)
| SetErrorCacheHeaders
| AnalyzeCandidate (user : string) (jobRole : JobRole) (options : Options)
| LoggerError (label : string).

(** [Math.ceil(a / b)] for integers [a] and [b > 0]. *)
Definition ceilDiv (a b : Z) : Z := - ((- a) / b).

(** Modelled from the spec: the regular expression of the
    github-username-regex package, which is not part of the sources -
    alphanumeric segments separated by single hyphens, no leading or
    trailing hyphen, 39 characters at most. *)
Definition isAlphaNumeric (c : ascii) : bool :=
  let n := N_of_ascii c in
  (((48 <=? n) && (n <=? 57)) || ((65 <=? n) && (n <=? 90))
   || ((97 <=? n) && (n <=? 122)))%N.

Fixpoint githubUsernameTail (s : string) : bool :=
  match s with
  | EmptyString => true
  | String c s' =>
      if isAlphaNumeric c then githubUsernameTail s'
      else if Ascii.eqb c "-" then
        match s' with
        | String d _ => isAlphaNumeric d && githubUsernameTail s'
        | EmptyString => false
        end
      else false
  end.

Definition githubUsernameGrammar (s : string) : bool :=
  match s with
  | String c s' =>
      isAlphaNumeric c && githubUsernameTail s' && (JsString.length s <=? 39)
  | EmptyString => false
  end.

(** [value.toLowerCase()] of a query parameter: an array has no such
    method. *)
Definition toLowerCase (name : string) (value : QueryValue) : Exception + string :=
  match value with
  | QString s => inr (JsString.toLowerCase s)
  | QArray _ =>
      inl (OtherError ("TypeError: " ++ name ++ ".toLowerCase is not a function"))
  end.

(** ** The analyze endpoint: validation, rate-limit gate, orchestration *)

Section Analyze.

(** [githubUsernameRegex.test], of the github-username-regex package. *)
Variable githubUsernameRegex_test : string -> bool.

(** The [message] the constructor of [MissingParamError] builds from
    the list of missed parameters (common/error.js). *)
Variable MissingParamError_message : list string -> string.

(** [parseBoolean] of common/ops.js; [None] is undefined. *)
Variable parseBoolean : option QueryValue -> option bool.

(** [parseInt(value, 10)]; [None] is NaN. *)
Variable parseInt10 : option QueryValue -> option Z.

(** [resolveCacheSeconds({ requested, def, min, max })] and the
    [CACHE_TTL.STATS_CARD] constants of common/cache.js. *)
Variable resolveCacheSeconds : option Z -> Z -> Z -> Z -> Z.
Variables STATS_CARD_DEFAULT STATS_CARD_MIN STATS_CARD_MAX : Z.

(** [analyzeCandidate(username, jobRole, options)] of analyzer.js, awaited:
    the analysis it resolves with or the error it rejects with. Every
    request to GitHub and to the scoring engine is made inside it. *)
Variable analyzeCandidate : string -> JobRole -> Options -> Exception + JSON.

Definition validateUsername (user : option QueryValue) : Exception + string :=
  match user with
  | None | Some (QString EmptyString) | Some (QArray _) =>
      inl (CustomError "Username is required and must be a string"
             MISSING_PARAMETER)
  | Some (QString user) =>
      let trimmedUsername := JsString.trim user in
      if JsString.length trimmedUsername =? 0 then
        inl (CustomError "Username cannot be empty" MISSING_PARAMETER)
      else if JsString.length trimmedUsername >? 39 then
        inl (CustomError "Username must be 39 characters or less"
               MISSING_PARAMETER)
      else if negb (githubUsernameRegex_test trimmedUsername) then
        inl (CustomError "Invalid GitHub username format" MISSING_PARAMETER)
      else inr trimmedUsername
  end.

Definition validateStringInput (value : option QueryValue) (fieldName : string)
    (maxLength : Z) : Exception + string :=
  match value with
  | None | Some (QString EmptyString) | Some (QArray _) =>
      inl (CustomError (fieldName ++ " is required and must be a string")
             MISSING_PARAMETER)
  | Some (QString value) =>
      let trimmed := JsString.trim value in
      if JsString.length trimmed =? 0 then
        inl (CustomError (fieldName ++ " cannot be empty") MISSING_PARAMETER)
      else if JsString.length trimmed >? maxLength then
        inl (CustomError
               (fieldName ++ " must be " ++ pretty maxLength
                ++ " characters or less")
               MISSING_PARAMETER)
      else inr trimmed
  end.

Definition validateSkills (skillsString : option QueryValue)
    (fieldName : string) (required : bool) : Exception + list string :=
  match skillsString with
  | None | Some (QString EmptyString) =>
      if required
      then inl (CustomError (fieldName ++ " is required") MISSING_PARAMETER)
      else inr []
  | Some (QArray _) =>
      inl (CustomError (fieldName ++ " must be a comma-separated string")
             MISSING_PARAMETER)
  | Some (QString skillsString) =>
      let skills :=
        List.filter JsString.truthy
          (List.map JsString.trim (JsString.split_comma skillsString)) in
      if required && (Z.of_nat (List.length skills) =? 0) then
        inl (CustomError (fieldName ++ " must contain at least one skill")
               MISSING_PARAMETER)
      else if Z.of_nat (List.length skills) >? 50 then
        inl (CustomError (fieldName ++ " cannot contain more than 50 skills")
               MISSING_PARAMETER)
      else if existsb (fun skill => JsString.length skill >? 50) skills then
        inl (CustomError
               ("Each skill in " ++ fieldName ++ " must be 50 characters or less")
               MISSING_PARAMETER)
      else inr skills
  end.

Definition getClientIdentifier (req : Request) : string :=
  let forwarded := headers req !! "x-forwarded-for" in
  let realIp := headers req !! "x-real-ip" in
  match forwarded with
  | Some (String c s) =>
      JsString.trim (hd EmptyString (JsString.split_comma (String c s)))
  | _ =>
      match realIp with
      | Some (String c s) => String c s
      | _ =>
          match socket_remoteAddress req with
          | Some (String c s) => String c s
          | _ => "unknown"
          end
      end
  end.

Definition parseJobRole (req : Request) : Exception + JobRole :=
  let job_title := query req !! "job_title" in
  let required_skills := query req !! "required_skills" in
  let nice_to_have_skills := query req !! "nice_to_have_skills" in
  let seniority := query req !! "seniority" in
  let focus := query req !! "focus" in
  match seniority, focus with
  | Some seniority, Some focus =>
      if absent job_title || absent required_skills
         || absent (Some seniority) || absent (Some focus)
      then inl (MissingParamError
                  ["job_title"; "required_skills"; "seniority"; "focus"])
      else
        let? validatedJobTitle := validateStringInput job_title "job_title" 100 in
        let? validatedRequiredSkills :=
          validateSkills required_skills "required_skills" true in
        let? validatedNiceToHaveSkills :=
          validateSkills nice_to_have_skills "nice_to_have_skills" false in
        let validSeniority := ["junior"; "mid"; "senior"] in
        let? lowerSeniority := toLowerCase "seniority" seniority in
        if negb (JsString.includes validSeniority lowerSeniority) then
          inl (CustomError
                 ("Invalid seniority. Must be one of: "
                  ++ JsString.join ", " validSeniority)
                 MISSING_PARAMETER)
        else
          let validFocus := ["frontend"; "backend"; "fullstack"; "data"; "infra"] in
          let? lowerFocus := toLowerCase "focus" focus in
          if negb (JsString.includes validFocus lowerFocus) then
            inl (CustomError
                   ("Invalid focus. Must be one of: "
                    ++ JsString.join ", " validFocus)
                   MISSING_PARAMETER)
          else
            inr {| title := validatedJobTitle;
                   required_skills := validatedRequiredSkills;
                   nice_to_have_skills := validatedNiceToHaveSkills;
                   seniority := lowerSeniority;
                   focus := lowerFocus |}
  | _, _ =>
      inl (MissingParamError
             ["job_title"; "required_skills"; "seniority"; "focus"])
  end.

(** The three rate-limit headers. *)
Definition rateLimitHeaders (remainingText : string) (reset : Z) : list Effect :=
  [SetHeader "X-RateLimit-Limit" (HString "10");
   SetHeader "X-RateLimit-Remaining" (HString remainingText);
   SetHeader "X-RateLimit-Reset" (HIsoDate reset)].

(** The [catch] block of the handler. *)
Definition catchBlock (error : Exception) : Response * list Effect :=
  match error with
  | MissingParamError missedParams =>
      ({| status := 400;
          body := ErrorBody (MissingParamError_message missedParams) |},
       [SetErrorCacheHeaders])
  | CustomError message _ =>
      ({| status := 500; body := ErrorBody message |},
       [SetErrorCacheHeaders; LoggerError "Analyzer error:"])
  | _ =>
      ({| status := 500;
          body := ErrorBody
                    "An unexpected error occurred while analyzing the candidate" |},
       [SetErrorCacheHeaders; LoggerError "Unexpected error:"])
  end.

(** The default export: [now] is what [Date.now()] reads inside
    [checkRateLimit], [retryNow] what it reads for [retryAfter], and
    [OPENAI_API_KEY] the variable of [process.env]. The result is the
    response, the effects in order, and the rate-limit map left behind. *)
Definition handler (req : Request) (now retryNow : Z)
    (OPENAI_API_KEY : option string)
    (rateLimitMap : gmap string RateLimitRecord)
  : Response * list Effect * gmap string RateLimitRecord :=
  let contentType := [SetHeader "Content-Type" (HString "application/json")] in
  let clientId := getClientIdentifier req in
  let '(rateLimit, rateLimitMap) :=
    checkRateLimit now clientId 10 60000 rateLimitMap in
  if negb (allowed rateLimit) then
    ({| status := 429;
        body := RateLimitBody
                  "Rate limit exceeded. Maximum 10 requests per minute."
                  (ceilDiv (status_resetAt rateLimit - retryNow) 1000) |},
     (contentType ++ rateLimitHeaders "0" (status_resetAt rateLimit))%list,
     rateLimitMap)
  else
    let effects :=
      (contentType
       ++ rateLimitHeaders (pretty (remaining rateLimit))
            (status_resetAt rateLimit))%list in
    match validateUsername (query req !! "username") with
    | inl (CustomError message _) =>
        ({| status := 400; body := ErrorBody message |}, effects, rateLimitMap)
    | inl _ =>
        ({| status := 400; body := ErrorBody "Invalid username parameter" |},
         effects, rateLimitMap)
    | inr validatedUsername =>
        match OPENAI_API_KEY with
        | None | Some EmptyString =>
            ({| status := 500;
                body := ErrorBody
                          "OpenAI API key is not configured. Please set OPENAI_API_KEY environment variable." |},
             effects, rateLimitMap)
        | Some apiKey =>
            let validModels := ["gpt-4o"; "gpt-4-turbo"; "gpt-4"; "gpt-3.5-turbo"] in
            let requestedModel :=
              if absent (query req !! "openai_model") then Some (QString "gpt-4o")
              else query req !! "openai_model" in
            let model :=
              match requestedModel with
              | Some (QString m) =>
                  if JsString.includes validModels m then m else "gpt-4o"
              | _ => "gpt-4o"
              end in
            match parseJobRole req with
            | inl error =>
                let '(response, caught) := catchBlock error in
                (response, (effects ++ caught)%list, rateLimitMap)
            | inr jobRole =>
                let options :=
                  {| include_all_commits :=
                       parseBoolean (query req !! "include_all_commits");
                     openai_api_key := apiKey;
                     model := model |} in
                let effects :=
                  (effects
                   ++ [AnalyzeCandidate validatedUsername jobRole options])%list in
                match analyzeCandidate validatedUsername jobRole options with
                | inl error =>
                    let '(response, caught) := catchBlock error in
                    (response, (effects ++ caught)%list, rateLimitMap)
                | inr analysis =>
                    let cacheSeconds :=
                      resolveCacheSeconds
                        (parseInt10 (query req !! "cache_seconds"))
                        STATS_CARD_DEFAULT STATS_CARD_MIN STATS_CARD_MAX in
                    ({| status := 200; body := AnalysisBody analysis |},
                     (effects ++ [SetCacheHeaders cacheSeconds])%list,
                     rateLimitMap)
                end
            end
        end
    end.

End Analyze.

(** ** The handler of api/analyze.js

    The file api/analyze.js holds a second default export for the same
    endpoint: no rate limit, no validation of the username or of the
    lengths, and an API key read from the query before the environment. *)

Module ApiAnalyze.

(** [title] is the raw query value here, and so are the user, the key
    and the model the handler passes on. *)
Record JobRole := {
  title : QueryValue;
  required_skills : list string;
  nice_to_have_skills : list string;
  seniority : string;
  focus : string
}.

Record Options := {
  include_all_commits : option bool;
  openai_api_key : QueryValue;
  model : QueryValue
}.

Inductive Effect :=
| SetHeader (name : string) (value : HeaderValue)
| SetCacheHeaders (cacheSeconds : Z)
| SetErrorCacheHeaders
| AnalyzeCandidate (user : QueryValue) (jobRole : JobRole) (options : Options)
| LoggerError (label : string).

(** [value.split(",").map((s) => s.trim()).filter(Boolean)]: an array has
    no [split]. *)
Definition splitSkills (name : string) (value : QueryValue)
  : Exception + list string :=
  match value with
  | QString s =>
      inr (List.filter JsString.truthy
             (List.map JsString.trim (JsString.split_comma s)))
  | QArray _ =>
      inl (OtherError ("TypeError: " ++ name ++ ".split is not a function"))
  end.

Section Handler.

Variable MissingParamError_message : list string -> string.
Variable parseBoolean : option QueryValue -> option bool.
Variable parseInt10 : option QueryValue -> option Z.
Variable resolveCacheSeconds : option Z -> Z -> Z -> Z -> Z.
Variables STATS_CARD_DEFAULT STATS_CARD_MIN STATS_CARD_MAX : Z.
Variable analyzeCandidate :
  QueryValue -> JobRole -> Options -> Exception + JSON.

Definition parseJobRole (req : Request) : Exception + JobRole :=
  let job_title := query req !! "job_title" in
  let required_skills := query req !! "required_skills" in
  let nice_to_have_skills := query req !! "nice_to_have_skills" in
  let seniority := query req !! "seniority" in
  let focus := query req !! "focus" in
  match job_title, required_skills, seniority, focus with
  | Some job_title, Some required_skills, Some seniority, Some focus =>
      if absent (Some job_title) || absent (Some required_skills)
         || absent (Some seniority) || absent (Some focus)
      then inl (MissingParamError
                  ["job_title"; "required_skills"; "seniority"; "focus"])
      else
        let validSeniority := ["junior"; "mid"; "senior"] in
        let? lowerSeniority := toLowerCase "seniority" seniority in
        if negb (JsString.includes validSeniority lowerSeniority) then
          inl (CustomError
                 ("Invalid seniority. Must be one of: "
                  ++ JsString.join ", " validSeniority)
                 MISSING_PARAMETER)
        else
          let validFocus := ["frontend"; "backend"; "fullstack"; "data"; "infra"] in
          let? lowerFocus := toLowerCase "focus" focus in
          if negb (JsString.includes validFocus lowerFocus) then
            inl (CustomError
                   ("Invalid focus. Must be one of: "
                    ++ JsString.join ", " validFocus)
                   MISSING_PARAMETER)
          else
            let? requiredSkills := splitSkills "required_skills" required_skills in
            let? niceToHaveSkills :=
              match nice_to_have_skills with
              | None | Some (QString EmptyString) => inr []
              | Some value => splitSkills "nice_to_have_skills" value
              end in
            inr {| title := job_title;
                   required_skills := requiredSkills;
                   nice_to_have_skills := niceToHaveSkills;
                   seniority := lowerSeniority;
                   focus := lowerFocus |}
  | _, _, _, _ =>
      inl (MissingParamError
             ["job_title"; "required_skills"; "seniority"; "focus"])
  end.

Definition catchBlock (error : Exception) : Response * list Effect :=
  match error with
  | MissingParamError missedParams =>
      ({| status := 400;
          body := ErrorBody (MissingParamError_message missedParams) |},
       [SetErrorCacheHeaders])
  | CustomError message _ =>
      ({| status := 500; body := ErrorBody message |},
       [SetErrorCacheHeaders; LoggerError "Analyzer error:"])
  | _ =>
      ({| status := 500;
          body := ErrorBody
                    "An unexpected error occurred while analyzing the candidate" |},
       [SetErrorCacheHeaders; LoggerError "Unexpected error:"])
  end.

Definition handler (req : Request) (OPENAI_API_KEY : option string)
  : Response * list Effect :=
  let effects := [SetHeader "Content-Type" (HString "application/json")] in
  match query req !! "username" with
  | None | Some (QString EmptyString) =>
      ({| status := 400;
          body := ErrorBody "Missing required parameter: username" |},
       effects)
  | Some user =>
      let apiKey :=
        if absent (query req !! "openai_api_key")
        then option_map QString OPENAI_API_KEY
        else query req !! "openai_api_key" in
      match apiKey with
      | None | Some (QString EmptyString) =>
          ({| status := 400;
              body := ErrorBody
                        "OpenAI API key is required. Provide 'openai_api_key' query parameter or set OPENAI_API_KEY environment variable." |},
           effects)
      | Some apiKey =>
          match parseJobRole req with
          | inl error =>
              let '(response, caught) := catchBlock error in
              (response, (effects ++ caught)%list)
          | inr jobRole =>
              let options :=
                {| include_all_commits :=
                     parseBoolean (query req !! "include_all_commits");
                   openai_api_key := apiKey;
                   model :=
                     match query req !! "openai_model" with
                     | None | Some (QString EmptyString) => QString "gpt-4o"
                     | Some m => m
                     end |} in
              let effects :=
                (effects ++ [AnalyzeCandidate user jobRole options])%list in
              match analyzeCandidate user jobRole options with
              | inl error =>
                  let '(response, caught) := catchBlock error in
                  (response, (effects ++ caught)%list)
              | inr analysis =>
                  let cacheSeconds :=
                    resolveCacheSeconds
                      (parseInt10 (query req !! "cache_seconds"))
                      STATS_CARD_DEFAULT STATS_CARD_MIN STATS_CARD_MAX in
                  ({| status := 200; body := AnalysisBody analysis |},
                   (effects ++ [SetCacheHeaders cacheSeconds])%list)
              end
          end
      end
  end.

End Handler.

End ApiAnalyze.

(** ** The analyzer (analyzer.js) *)

Module Analyzer.

Section Collaborators.

(** The three fetches [aggregateGitHubData] starts for a user and an
    [include_all_commits] flag, awaited together. *)
Variable fetchAll : string -> bool -> Exception + (Stats * list Lang * Profile).

(** [loadSystemPrompt()]: the prompt file, or the error of reading it. *)
Variable loadSystemPrompt : Exception + string.

Variable JSON_parse : string -> option JSON.
Variable axios_post :
  string -> string -> AnalyzerInput -> string -> Exception + option string.

(** [analyzeCandidate(username, jobRole, options)]; the catch block logs
    the error and throws it again. *)
Definition analyzeCandidate (user : string) (jobRole : JobRole)
    (options : Options) : Exception + JSON :=
  let include_all_commits :=
    match include_all_commits options with
    | Some b => b
    | None => false
    end in
  let? githubData :=
    aggregateGitHubData user (fetchAll user include_all_commits) in
  let githubData :=
    {| candidate := candidate githubData;
       github_stats := github_stats githubData;
       job_role := Some jobRole |} in
  let? systemPrompt := loadSystemPrompt in
  analyzeWithOpenAI JSON_parse axios_post systemPrompt githubData
    (Some (openai_api_key options)) (model options).

End Collaborators.

End Analyzer.

(** ** Reading the effects of a response *)

Definition setsHeader (header : string) (e : Effect) : bool :=
  match e with
  | SetHeader name _ => String.eqb name header
  | _ => false
  end.

Definition isSetCacheHeaders (e : Effect) : bool :=
  match e with SetCacheHeaders _ => true | _ => false end.

Definition isSetErrorCacheHeaders (e : Effect) : bool :=
  match e with SetErrorCacheHeaders => true | _ => false end.

Definition isAnalyzeCandidate (e : Effect) : bool :=
  match e with AnalyzeCandidate _ _ _ => true | _ => false end.

Definition countEffects (p : Effect -> bool) (effects : list Effect) : nat :=
  List.length (List.filter p effects).

(** The request of a query given as a list of parameters, with no
    forwarding header and the given peer address. *)
Definition requestOf (peer : string) (params : list (string * string)) : Request :=
  {| headers := ∅;
     socket_remoteAddress := Some peer;
     query := list_to_map (List.map (fun p => (fst p, QString (snd p))) params) |}.

(** The request gets as far as the [try] block of the handler: it is
    admitted by the rate limiter, its username is valid and the API key
    is configured. *)
Definition reachesJobRole (githubUsernameRegex_test : string -> bool)
    (req : Request) (now : Z) (OPENAI_API_KEY : option string)
    (rateLimitMap : gmap string RateLimitRecord) : bool :=
  allowed (fst (checkRateLimit now (getClientIdentifier req) 10 60000 rateLimitMap))
  && match validateUsername githubUsernameRegex_test (query req !! "username") with
     | inr _ => true
     | inl _ => false
     end
  && match OPENAI_API_KEY with
     | Some (String _ _) => true
     | _ => false
     end.

(** The same request with another query. *)
Definition withQuery (req : Request) (q : gmap string QueryValue) : Request :=
  {| headers := headers req;
     socket_remoteAddress := socket_remoteAddress req;
     query := q |}.

(** The rate-limit map after ten calls of one client at times 0..9. *)
Definition afterTenCalls (client : string) : gmap string RateLimitRecord :=
  snd (serve (List.map (pair client) [0; 1; 2; 3; 4; 5; 6; 7; 8; 9]) 10 60000 ∅).

(** The handler with its collaborators fixed, to run it on requests: the
    grammar of the spec for the username test, a message that lists the
    missed parameters, no boolean or integer option recognised, the
    default cache duration, and an analyzer whose fetches resolve and
    whose scoring engine answers with a confidence of 85. *)
Definition exampleFetch (user : string) (include_all_commits : bool)
  : Exception + (Stats * list Lang * Profile) :=
  inr ({| totalCommits := 240; totalPRs := 12; totalPRsMerged := 9;
          totalReviews := 4; totalIssues := 7; contributedTo := 3 |},
       [{| lang_name := "JavaScript"; lang_size := 300 |};
        {| lang_name := "Ruby"; lang_size := 100 |}],
       {| public_repos := 8; followers := 3; account_age_years := 2 |}).

Definition exampleAnalyzer : string -> JobRole -> Options -> Exception + JSON :=
  Analyzer.analyzeCandidate exampleFetch (inr "You are a technical recruiter.")
    (fun _ => Some (analysisWithConfidence (JNumber (Num 85))))
    (fun _ _ _ _ => inr (Some "{ ... }")).

Definition exampleHandler :=
  handler githubUsernameGrammar
    (fun missed => "Missing params: " ++ JsString.join ", " missed)
    (fun _ => None) (fun _ => None) (fun _ def _ _ => def) 1800 0 86400
    exampleAnalyzer.

(** The query of the tests of test-api.sh: a valid request but for the
    given username, seniority and focus. *)
Definition queryOf (user seniorityParam focusParam : string)
  : list (string * string) :=
  [("username", user); ("job_title", "Engineer"); ("required_skills", "JS");
   ("seniority", seniorityParam); ("focus", focusParam)].

(** ** Vocabulary of the further properties *)

(** A string without a comma, and one that [trim] leaves as it is. *)
Definition commaFree (s : string) : Prop :=
  ~ In ","%char (list_ascii_of_string s).

Definition trimmed (s : string) : Prop := JsString.trim s = s.

(** A skill as [validateSkills] returns it: not empty, trimmed, without a
    comma, of 50 characters at most. *)
Definition wellFormedSkill (s : string) : Prop :=
  s <> "" /\ trimmed s /\ commaFree s /\ JsString.length s <= 50.

(** Every stored record counts between 1 and [K] requests. *)
Definition countsWithin (K : Z) (m : gmap string RateLimitRecord) : Prop :=
  map_Forall (fun _ r => 1 <= count r <= K) m.

(** No stored window ends later than one window after the time [t]. *)
Definition resetWithin (W t : Z) (m : gmap string RateLimitRecord) : Prop :=
  map_Forall (fun _ r => resetAt r <= t + W) m.

(** The clock does not go back along the calls, from the time [t] on. *)
Fixpoint clockFrom (t : Z) (calls : list (string * Z)) : Prop :=
  match calls with
  | [] => True
  | (_, now) :: rest => t <= now /\ clockFrom now rest
  end.

(** A run of a handler: the requests are handled one after the other,
    each reading the clock once; the responses are kept with the client
    identifier of their request. *)
Fixpoint handleAll
    (handle : Request -> Z -> Z -> option string ->
              gmap string RateLimitRecord ->
              Response * list Effect * gmap string RateLimitRecord)
    (OPENAI_API_KEY : option string) (arrivals : list (Request * Z))
    (rateLimitMap : gmap string RateLimitRecord)
  : list (string * Response) * gmap string RateLimitRecord :=
  match arrivals with
  | [] => ([], rateLimitMap)
  | (req, now) :: rest =>
      let '(response, _, m1) := handle req now now OPENAI_API_KEY rateLimitMap in
      let '(responses, m2) := handleAll handle OPENAI_API_KEY rest m1 in
      ((getClientIdentifier req, response) :: responses, m2)
  end.

(** The calls of the limiter the arrivals give rise to. *)
Definition limiterCalls (arrivals : list (Request * Z)) : list (string * Z) :=
  List.map (fun a => (getClientIdentifier (fst a), snd a)) arrivals.

(** How many requests of a client were answered with something else
    than 429. *)
Definition served (client : string) (responses : list (string * Response)) : nat :=
  List.length
    (List.filter
       (fun r => String.eqb (fst r) client && negb (status (snd r) =? 429))
       responses).



(** The milliseconds of a year of 365 days. *)
Definition yearMs : Z := 1000 * 60 * 60 * 24 * 365.


(** * Properties *)

(** ** The rate limiter *)

Section RateLimiter.

Implicit Types (m : gmap string RateLimitRecord) (id : string).

Lemma checkRateLimit_other now id id' K W m :
  id <> id' ->
  snd (checkRateLimit now id K W m) !! id' = m !! id'.
Proof.
  intros Hne. unfold checkRateLimit.
  destruct (m !! id) as [record|]; simpl.
  - destruct (now >? resetAt record); simpl.
    + by rewrite lookup_insert_ne.
    + destruct (count record >=? K); simpl; [done|].
      by rewrite lookup_insert_ne.
  - by rewrite lookup_insert_ne.
Qed.

Lemma checkRateLimit_expired now id K W m record :
  m !! id = Some record ->
  resetAt record < now ->
  checkRateLimit now id K W m =
    ({| allowed := true; remaining := K - 1; status_resetAt := now + W |},
     <[id := {| count := 1; resetAt := now + W |}]> m).
Proof.
  intros Hm Hlt. unfold checkRateLimit. rewrite Hm.
  destruct (Z.gtb_spec now (resetAt record)); [done | lia].
Qed.

Lemma checkRateLimit_opens now id K W m :
  opensWindow m id now ->
  checkRateLimit now id K W m =
    ({| allowed := true; remaining := K - 1; status_resetAt := now + W |},
     <[id := {| count := 1; resetAt := now + W |}]> m).
Proof.
  unfold opensWindow. destruct (m !! id) as [record|] eqn:Hm.
  - intros Hlt. by eapply checkRateLimit_expired.
  - intros _. unfold checkRateLimit. by rewrite Hm.
Qed.

Lemma checkRateLimit_full now id K W m c r :
  m !! id = Some {| count := c; resetAt := r |} ->
  now <= r -> K <= c ->
  checkRateLimit now id K W m =
    ({| allowed := false; remaining := 0; status_resetAt := r |}, m).
Proof.
  intros Hm Hnow Hc. unfold checkRateLimit. rewrite Hm. simpl.
  destruct (Z.gtb_spec now r); [lia|].
  destruct (Z.geb_spec c K); [done | lia].
Qed.

Lemma checkRateLimit_room now id K W m c r :
  m !! id = Some {| count := c; resetAt := r |} ->
  now <= r -> c < K ->
  checkRateLimit now id K W m =
    ({| allowed := true; remaining := K - (c + 1); status_resetAt := r |},
     <[id := {| count := c + 1; resetAt := r |}]> m).
Proof.
  intros Hm Hnow Hc. unfold checkRateLimit. rewrite Hm. simpl.
  destruct (Z.gtb_spec now r); [lia|].
  destruct (Z.geb_spec c K); [lia | done].
Qed.

Lemma callsOf_cons_eq id now calls :
  callsOf id ((id, now) :: calls) = now :: callsOf id calls.
Proof. unfold callsOf. simpl. by rewrite String.eqb_refl. Qed.

Lemma callsOf_cons_ne id id' now calls :
  id' <> id -> callsOf id ((id', now) :: calls) = callsOf id calls.
Proof.
  intros Hne. unfold callsOf. simpl.
  destruct (String.eqb_spec id' id); [done | done].
Qed.

(** Inside an open window the record of [id] counts the admitted calls,
    and the calls admitted are the first ones, as long as there is room. *)
Lemma serve_in_window id K W calls : forall m c r statuses m',
  m !! id = Some {| count := c; resetAt := r |} ->
  Forall (fun now => now <= r) (callsOf id calls) ->
  serve calls K W m = (statuses, m') ->
  Z.of_nat (admitted id statuses)
    = Z.min (Z.of_nat (List.length (callsOf id calls))) (Z.max 0 (K - c))
  /\ (admitted id statuses + denied id statuses
      = List.length (callsOf id calls))%nat
  /\ m' !! id
     = Some {| count := c + Z.of_nat (admitted id statuses); resetAt := r |}.
Proof.
  induction calls as [|[id' now] calls IH]; intros m c r statuses m' Hm Hin Hs.
  - simpl in Hs. injection Hs as <- <-. unfold admitted, denied, callsOf. simpl.
    rewrite Hm. split; [lia|]. split; [done|]. do 2 f_equal. lia.
  - simpl in Hs.
    destruct (checkRateLimit now id' K W m) as [status m1] eqn:Hc.
    destruct (serve calls K W m1) as [statuses1 m2] eqn:Hs1.
    injection Hs as <- <-.
    destruct (String.eqb_spec id' id) as [->|Hne].
    + rewrite callsOf_cons_eq in *. inversion Hin as [|? ? Hnow Hin']; subst.
      destruct (Z.lt_ge_cases c K) as [Hroom|Hfull].
      * rewrite (checkRateLimit_room _ _ _ _ _ c r) in Hc by (done || lia).
        injection Hc as <- <-.
        destruct (IH _ (c + 1) r _ _ (lookup_insert_eq _ _ _) Hin' Hs1)
          as (Ha & Hd & Hm').
        unfold admitted, denied in *. simpl. rewrite String.eqb_refl. simpl.
        rewrite Hm'. split; [lia|]. split; [lia|]. do 2 f_equal. lia.
      * rewrite (checkRateLimit_full _ _ _ _ _ c r) in Hc by (done || lia).
        injection Hc as <- <-.
        destruct (IH _ c r _ _ Hm Hin' Hs1) as (Ha & Hd & Hm').
        unfold admitted, denied in *. simpl. rewrite String.eqb_refl. simpl.
        rewrite Hm'. split; [lia|]. split; [lia|]. done.
    + rewrite callsOf_cons_ne in * by done.
      assert (m1 !! id = Some {| count := c; resetAt := r |}) as Hm1.
      { replace m1 with (snd (checkRateLimit now id' K W m)) by by rewrite Hc.
        by rewrite checkRateLimit_other. }
      destruct (IH _ c r _ _ Hm1 Hin Hs1) as (Ha & Hd & Hm').
      unfold admitted, denied in *. simpl.
      destruct (String.eqb_spec id' id); [done|]. simpl. done.
Qed.

(** From the call that opens the window on. *)
Lemma serve_one_window id K W calls : forall m statuses m',
  1 <= K ->
  withinOneWindow m id W calls ->
  serve calls K W m = (statuses, m') ->
  Z.of_nat (admitted id statuses)
    = Z.min (Z.of_nat (List.length (callsOf id calls))) K
  /\ (admitted id statuses + denied id statuses
      = List.length (callsOf id calls))%nat.
Proof.
  induction calls as [|[id' now] calls IH]; intros m statuses m' HK Hw Hs.
  - simpl in Hs. injection Hs as <- <-. unfold admitted, denied, callsOf. simpl.
    split; [lia | done].
  - simpl in Hs.
    destruct (checkRateLimit now id' K W m) as [status m1] eqn:Hc.
    destruct (serve calls K W m1) as [statuses1 m2] eqn:Hs1.
    injection Hs as <- <-.
    unfold withinOneWindow in Hw.
    destruct (String.eqb_spec id' id) as [->|Hne].
    + rewrite callsOf_cons_eq in *. destruct Hw as [Hopen Hlater].
      rewrite checkRateLimit_opens in Hc by done. injection Hc as <- <-.
      destruct (serve_in_window id K W calls _ 1 (now + W) _ _
                  (lookup_insert_eq _ _ _) Hlater Hs1) as (Ha & Hd & _).
      unfold admitted, denied in *. simpl. rewrite String.eqb_refl. simpl.
      split; lia.
    + rewrite callsOf_cons_ne in * by done.
      assert (m1 !! id = m !! id) as Hm1.
      { replace m1 with (snd (checkRateLimit now id' K W m)) by by rewrite Hc.
        by rewrite checkRateLimit_other. }
      assert (withinOneWindow m1 id W calls) as Hw1.
      { unfold withinOneWindow, opensWindow. by rewrite Hm1. }
      destruct (IH _ _ _ HK Hw1 Hs1) as (Ha & Hd).
      unfold admitted, denied in *. simpl.
      destruct (String.eqb_spec id' id); [done|]. simpl. done.
Qed.

End RateLimiter.

(** While the record has room, every call of a run for one identifier is
    admitted and counted. *)
Lemma serve_room id K W later : forall (m : gmap string RateLimitRecord) c r,
  m !! id = Some {| count := c; resetAt := r |} ->
  Forall (fun now => now <= r) later ->
  c + Z.of_nat (List.length later) <= K ->
  exists statuses m',
    serve (List.map (pair id) later) K W m = (statuses, m')
    /\ List.length statuses = List.length later
    /\ Forall (fun s => allowed (snd s) = true) statuses
    /\ m' !! id
       = Some {| count := c + Z.of_nat (List.length later); resetAt := r |}.
Proof.
  induction later as [|now later IH]; intros m c r Hm Hin Hroom.
  - exists [], m. simpl. repeat split; [constructor|].
    rewrite Hm. do 2 f_equal. lia.
  - inversion Hin as [|? ? Hnow Hin']; subst. simpl in Hroom.
    destruct (IH (<[id := {| count := c + 1; resetAt := r |}]> m) (c + 1) r)
      as (statuses & m' & Hs & Hlen & Hall & Hm'); [apply lookup_insert_eq | done | lia |].
    eexists _, m'. simpl.
    rewrite (checkRateLimit_room _ _ _ _ _ c r) by (done || lia).
    rewrite Hs. split; [reflexivity|]. simpl.
    split; [by rewrite Hlen|]. split; [by constructor|].
    rewrite Hm'. do 2 f_equal. lia.
Qed.

(** C2. With maxRequests = 10 and windowMs = 60000 and one identifier:
    the call that opens a window and the nine that follow it inside the
    window are all allowed; an eleventh call inside the window is denied
    with remaining = 0 and leaves the map (so the stored count) as it is;
    and a call issued strictly after the stored resetAt is allowed and
    stores count = 1 and resetAt = now + 60000. *)
Theorem checkRateLimit_ten_per_window id (m : gmap string RateLimitRecord)
    first later eleventh :
  opensWindow m id first ->
  List.length later = 9%nat ->
  Forall (fun now => now <= first + 60000) later ->
  eleventh <= first + 60000 ->
  exists statuses m10,
    serve (List.map (pair id) (first :: later)) 10 60000 m = (statuses, m10)
    /\ List.length statuses = 10%nat
    /\ Forall (fun s => allowed (snd s) = true) statuses
    /\ m10 !! id = Some {| count := 10; resetAt := first + 60000 |}
    /\ checkRateLimit eleventh id 10 60000 m10
       = ({| allowed := false; remaining := 0;
             status_resetAt := first + 60000 |}, m10)
    /\ forall (m' : gmap string RateLimitRecord) record now,
         m' !! id = Some record ->
         resetAt record < now ->
         checkRateLimit now id 10 60000 m'
         = ({| allowed := true; remaining := 9;
               status_resetAt := now + 60000 |},
            <[id := {| count := 1; resetAt := now + 60000 |}]> m').
Proof.
  intros Hopen Hlen Hin Hnow.
  destruct (serve_room id 10 60000 later
              (<[id := {| count := 1; resetAt := first + 60000 |}]> m)
              1 (first + 60000))
    as (statuses & m10 & Hs & Hl & Hall & Hm10);
    [apply lookup_insert_eq | done | lia |].
  eexists _, m10. simpl.
  rewrite checkRateLimit_opens by done. rewrite Hs.
  split; [reflexivity|]. simpl.
  split; [lia|]. split; [by constructor|].
  rewrite Hlen in Hm10. split; [done|].
  split; [apply (checkRateLimit_full _ _ _ _ _ 10); [done | done | lia]|].
  intros m' record now Hm' Hlt.
  by rewrite (checkRateLimit_expired _ _ _ _ _ record).
Qed.

Lemma checkRateLimit_ten_per_window_witness :
  exists statuses m10,
    serve (List.map (pair "203.0.113.7") [0; 1; 2; 3; 4; 5; 6; 7; 8; 9])
      10 60000 ∅ = (statuses, m10)
    /\ List.length statuses = 10%nat
    /\ Forall (fun s => allowed (snd s) = true) statuses
    /\ m10 !! "203.0.113.7" = Some {| count := 10; resetAt := 60000 |}
    /\ checkRateLimit 10 "203.0.113.7" 10 60000 m10
       = ({| allowed := false; remaining := 0; status_resetAt := 60000 |}, m10)
    /\ forall (m' : gmap string RateLimitRecord) record now,
         m' !! "203.0.113.7" = Some record ->
         resetAt record < now ->
         checkRateLimit now "203.0.113.7" 10 60000 m'
         = ({| allowed := true; remaining := 9;
               status_resetAt := now + 60000 |},
            <["203.0.113.7" := {| count := 1; resetAt := now + 60000 |}]> m').
Proof.
  apply (checkRateLimit_ten_per_window "203.0.113.7" ∅ 0
           [1; 2; 3; 4; 5; 6; 7; 8; 9] 10).
  - unfold opensWindow. rewrite lookup_empty. exact I.
  - reflexivity.
  - repeat constructor; lia.
  - lia.
Defined.

(** C3, as the code has it: for a limit K of at least 1, of the N calls
    one identifier issues within one window - served in any order, and
    interleaved in any way with the calls of other identifiers - exactly
    min(N, K) are admitted and the other N - min(N, K) are denied; so no
    more than K are admitted. Each call runs to completion before the
    next is served. *)
Theorem serve_admits_min id K W calls (m : gmap string RateLimitRecord) :
  1 <= K ->
  withinOneWindow m id W calls ->
  let N := List.length (callsOf id calls) in
  let statuses := fst (serve calls K W m) in
  admitted id statuses = Nat.min N (Z.to_nat K)
  /\ denied id statuses = (N - Nat.min N (Z.to_nat K))%nat
  /\ Z.of_nat (admitted id statuses) <= K.
Proof.
  intros HK Hw N statuses. subst N statuses.
  destruct (serve calls K W m) as [statuses m'] eqn:Hs. simpl.
  destruct (serve_one_window id K W calls m statuses m' HK Hw Hs) as [Ha Hd].
  lia.
Qed.

Lemma serve_admits_min_witness :
  let calls := [("a", 5); ("b", 6); ("a", 3); ("a", 60005); ("b", 7); ("a", 9)] in
  let statuses := fst (serve calls 3 60000 ∅) in
  admitted "a" statuses = 3%nat
  /\ denied "a" statuses = 1%nat
  /\ Z.of_nat (admitted "a" statuses) <= 3.
Proof.
  apply (serve_admits_min "a" 3 60000
           [("a", 5); ("b", 6); ("a", 3); ("a", 60005); ("b", 7); ("a", 9)] ∅).
  - lia.
  - unfold withinOneWindow, opensWindow. rewrite lookup_empty. simpl.
    split; [exact I | repeat constructor; lia].
Defined.

(** C3 as stated fails for the limit K = 0: the call that opens a window
    is admitted without a look at maxRequests, so one call is admitted
    where min(N, K) = 0. *)
Lemma serve_zero_limit_admits_one :
  withinOneWindow ∅ "a" 60000 [("a", 0)]
  /\ admitted "a" (fst (serve [("a", 0)] 0 60000 ∅)) = 1%nat
  /\ Nat.min (List.length (callsOf "a" [("a", 0)])) (Z.to_nat 0) = 0%nat
  /\ ~ Z.of_nat (admitted "a" (fst (serve [("a", 0)] 0 60000 ∅))) <= 0.
Proof.
  split.
  { unfold withinOneWindow, opensWindow. rewrite lookup_empty. simpl.
    split; [exact I | constructor]. }
  assert (admitted "a" (fst (serve [("a", 0)] 0 60000 ∅)) = 1%nat) as ->.
  { simpl. unfold checkRateLimit. rewrite lookup_empty. reflexivity. }
  split; [reflexivity|]. split; [reflexivity | lia].
Qed.

(** ** The data aggregator *)

Lemma Qltb_lt (x y : Q) : Qltb x y = true <-> (x < y)%Q.
Proof.
  unfold Qltb. rewrite negb_true_iff. split.
  - intros H. apply Qnot_le_lt. intros Hle.
    apply Qle_bool_iff in Hle. congruence.
  - intros H. destruct (Qle_bool y x) eqn:E; [|reflexivity].
    apply Qle_bool_iff in E. exfalso. exact (Qlt_not_le _ _ H E).
Qed.

Lemma Qltb_ge (x y : Q) : Qltb x y = false <-> (y <= x)%Q.
Proof.
  unfold Qltb. rewrite negb_false_iff. apply Qle_bool_iff.
Qed.

(** A classifier with two strict cut points. *)
Lemma two_cuts (x a b : Q) (l m h : string) :
  (a <= b)%Q -> l <> m -> m <> h -> l <> h ->
  let r := if Qltb x a then l else if Qltb x b then m else h in
  (r = l <-> (x < a)%Q)
  /\ (r = m <-> (a <= x)%Q /\ (x < b)%Q)
  /\ (r = h <-> (b <= x)%Q).
Proof.
  intros Hab Hlm Hmh Hlh r. subst r.
  destruct (Qltb x a) eqn:Ea; [apply Qltb_lt in Ea | apply Qltb_ge in Ea];
    (destruct (Qltb x b) eqn:Eb; [apply Qltb_lt in Eb | apply Qltb_ge in Eb]).
  all: repeat split; intros; try congruence; try lra;
    match goal with H : _ /\ _ |- _ => destruct H; lra end.
Qed.

(** C9. The classifiers compare with strict [<]: for an account age other
    than 0, the frequency is "low" exactly when commits-per-year < 50,
    "medium" exactly when 50 <= commits-per-year < 200 and "high" from 200
    on; the consistency is "sporadic" exactly when commits-per-month < 2,
    "consistent" exactly when 2 <= commits-per-month < 10 and
    "very_consistent" from 10 on. For totalCommits = 240 and
    accountAgeYears = 2 they are "medium" and "very_consistent". *)
Theorem commit_classifiers_strict_thresholds (commits age : Z) :
  age <> 0 ->
  let commitsPerYear := (inject_Z commits / inject_Z age)%Q in
  let commitsPerMonth := (commitsPerYear / 12)%Q in
  (calculateCommitFrequency commits age = "low" <-> (commitsPerYear < 50)%Q)
  /\ (calculateCommitFrequency commits age = "medium"
      <-> (50 <= commitsPerYear)%Q /\ (commitsPerYear < 200)%Q)
  /\ (calculateCommitFrequency commits age = "high" <-> (200 <= commitsPerYear)%Q)
  /\ (calculateCommitConsistency commits age = "sporadic"
      <-> (commitsPerMonth < 2)%Q)
  /\ (calculateCommitConsistency commits age = "consistent"
      <-> (2 <= commitsPerMonth)%Q /\ (commitsPerMonth < 10)%Q)
  /\ (calculateCommitConsistency commits age = "very_consistent"
      <-> (10 <= commitsPerMonth)%Q)
  /\ calculateCommitFrequency 240 2 = "medium"
  /\ calculateCommitConsistency 240 2 = "very_consistent".
Proof.
  intros Hage commitsPerYear commitsPerMonth.
  unfold calculateCommitFrequency, calculateCommitConsistency.
  destruct (Z.eqb_spec age 0) as [|_]; [contradiction|].
  fold commitsPerYear. fold commitsPerMonth.
  destruct (two_cuts commitsPerYear 50 200 "low" "medium" "high")
    as (Hl & Hm & Hh); [lra | discriminate..|].
  destruct (two_cuts commitsPerMonth 2 10 "sporadic" "consistent" "very_consistent")
    as (Hs & Hc & Hv); [lra | discriminate..|].
  repeat split; try (apply Hl || apply Hm || apply Hh || apply Hs || apply Hc || apply Hv);
    try tauto.
Qed.

Lemma commit_classifiers_strict_thresholds_witness :
  let commitsPerYear := (inject_Z 240 / inject_Z 2)%Q in
  let commitsPerMonth := (commitsPerYear / 12)%Q in
  (calculateCommitFrequency 240 2 = "low" <-> (commitsPerYear < 50)%Q)
  /\ (calculateCommitFrequency 240 2 = "medium"
      <-> (50 <= commitsPerYear)%Q /\ (commitsPerYear < 200)%Q)
  /\ (calculateCommitFrequency 240 2 = "high" <-> (200 <= commitsPerYear)%Q)
  /\ (calculateCommitConsistency 240 2 = "sporadic"
      <-> (commitsPerMonth < 2)%Q)
  /\ (calculateCommitConsistency 240 2 = "consistent"
      <-> (2 <= commitsPerMonth)%Q /\ (commitsPerMonth < 10)%Q)
  /\ (calculateCommitConsistency 240 2 = "very_consistent"
      <-> (10 <= commitsPerMonth)%Q)
  /\ calculateCommitFrequency 240 2 = "medium"
  /\ calculateCommitConsistency 240 2 = "very_consistent".
Proof.
  apply (commit_classifiers_strict_thresholds 240 2). lia.
Defined.

(** The boundaries themselves fall on the upper side. *)
Example commit_frequency_at_50 : calculateCommitFrequency 100 2 = "medium".
Proof. reflexivity. Qed.

Example commit_frequency_at_200 : calculateCommitFrequency 400 2 = "high".
Proof. reflexivity. Qed.

Example commit_consistency_at_2 : calculateCommitConsistency 24 1 = "consistent".
Proof. reflexivity. Qed.

(** C6. Whatever the three fetches resolve with, the aggregate is built
    over the empty top-repositories list: it has readme_quality "poor",
    documentation_signal "low" and team_projects_ratio 0 (and
    solo_projects_ratio 1). The only other outcome is the rejection of the
    fetches, thrown again. *)
Theorem aggregateGitHubData_placeholder_signals user fetched :
  match aggregateGitHubData user fetched with
  | inr out =>
      (exists stats topLangs profile, fetched = inr (stats, topLangs, profile))
      /\ top_repositories (github_stats out) = []
      /\ readme_quality (github_stats out) = "poor"
      /\ documentation_signal (github_stats out) = "low"
      /\ team_projects_ratio (collaboration_signals (github_stats out)) = 0%Q
      /\ solo_projects_ratio (collaboration_signals (github_stats out)) = 1%Q
  | inl error => fetched = inl error
  end.
Proof.
  destruct fetched as [error | [[stats topLangs] profile]]; simpl.
  - reflexivity.
  - split; [by eexists _, _, _|]. repeat split.
Qed.

(** The heuristics do tell repositories apart once they are given some. *)
Example assessReadmeQuality_described :
  assessReadmeQuality
    [{| repo_name := "cli"; stars := 3; forks := 0; is_original_work := true;
        description := Some "A command line client for the service" |}]
  = "strong".
Proof. reflexivity. Qed.

(** C10. A profile [fetchUserProfile] produces has account_age_years >= 1,
    on the fallback path as on the success path; so with such a profile
    the guards [accountAgeYears === 0] of the two classifiers are false,
    the divisor of commits-per-year is not zero, and the aggregate
    carries the classification of the quotient. *)
Theorem fetchUserProfile_age_at_least_one now res p :
  fetchUserProfile now res = inr p ->
  1 <= account_age_years p
  /\ (account_age_years p =? 0) = false
  /\ ~ (inject_Z (account_age_years p) == 0)%Q
  /\ forall user stats topLangs,
       exists out,
         aggregateGitHubData user (inr (stats, topLangs, p)) = inr out
         /\ account_age_years (profile (candidate out)) = account_age_years p
         /\ let commitsPerYear :=
              (inject_Z (totalCommits stats)
               / inject_Z (account_age_years p))%Q in
            commit_frequency (github_stats out)
            = (if Qltb commitsPerYear 50 then "low"
               else if Qltb commitsPerYear 200 then "medium" else "high")
            /\ commit_consistency (github_stats out)
               = (if Qltb (commitsPerYear / 12) 2 then "sporadic"
                  else if Qltb (commitsPerYear / 12) 10 then "consistent"
                  else "very_consistent").
Proof.
  intros Hp.
  assert (1 <= account_age_years p) as Hage.
  { destruct res as [e | [| [user|]]]; simpl in Hp; try discriminate;
      injection Hp as <-; simpl; lia. }
  assert ((account_age_years p =? 0) = false) as Hguard
    by (apply Z.eqb_neq; lia).
  split; [done|]. split; [done|]. split.
  - intros H. unfold Qeq in H. simpl in H. lia.
  - intros user stats topLangs. eexists. split; [reflexivity|]. simpl.
    unfold calculateCommitFrequency, calculateCommitConsistency.
    rewrite Hguard. repeat split.
Qed.

Lemma fetchUserProfile_age_at_least_one_witness :
  let young :=
    {| repositories_totalCount := 8; followers_totalCount := 3;
       createdAt := 1760000000000 |} in
  fetchUserProfile 1767225600000 (inr (ResData (Some young)))
  = inr {| public_repos := 8; followers := 3; account_age_years := 1 |}
  /\ 1 <= account_age_years
            {| public_repos := 8; followers := 3; account_age_years := 1 |}.
Proof.
  split; [reflexivity|].
  apply (fetchUserProfile_age_at_least_one 1767225600000
           (inr (ResData (Some {| repositories_totalCount := 8;
                                  followers_totalCount := 3;
                                  createdAt := 1760000000000 |})))
           {| public_repos := 8; followers := 3; account_age_years := 1 |}).
  reflexivity.
Defined.

(** Both settled answers that carry errors or a user produce a profile. *)
Lemma fetchUserProfile_produces now :
  fetchUserProfile now (inr ResErrors)
  = inr {| public_repos := 0; followers := 0; account_age_years := 1 |}
  /\ forall user, exists p,
       fetchUserProfile now (inr (ResData (Some user))) = inr p.
Proof. split; [reflexivity|]. intros user. eexists. reflexivity. Qed.

(** ** The scoring client *)

#[local] Arguments number_ltb : simpl never.
#[local] Arguments Math_min : simpl never.
#[local] Arguments Math_max : simpl never.
#[local] Arguments truthy : simpl never.

Lemma lookupMember_setMember key v members :
  lookupMember key (setMember key v members) = Some v.
Proof.
  induction members as [|[k w] members IH]; simpl.
  - by rewrite String.eqb_refl.
  - destruct (String.eqb k key) eqn:E; simpl; rewrite E; [done | exact IH].
Qed.

(** Clamping a number that is not NaN lands in 0..100. *)
Lemma clamp_in_range n :
  n <> NaN ->
  inConfidenceRange (JNumber (Math_max (Num 0) (Math_min (Num 100) n))) = true.
Proof.
  intros Hn. destruct n as [|q| |]; [done| |reflexivity|reflexivity].
  unfold Math_min, Math_max, number_ltb.
  destruct (Qltb q 100) eqn:E1.
  - destruct (Qltb 0 q) eqn:E2; simpl.
    + apply Qltb_lt in E1, E2. apply andb_true_intro.
      split; apply Qle_bool_iff; lra.
    + reflexivity.
  - reflexivity.
Qed.

(** A number in 0..100 does not enter the clamp. *)
Lemma in_range_not_clamped n :
  inConfidenceRange (JNumber n) = true ->
  number_ltb n (Num 0) || number_ltb (Num 100) n = false.
Proof.
  destruct n as [|q| |]; simpl; try discriminate.
  intros H. apply andb_prop in H as [H0 H100].
  apply Qle_bool_iff in H0, H100. apply orb_false_intro; apply Qltb_ge; lra.
Qed.

(** A number that enters the clamp is not zero, so [||] keeps it. *)
Lemma clamped_number_truthy n :
  number_ltb n (Num 0) || number_ltb (Num 100) n = true ->
  truthy (JNumber n) = true /\ n <> NaN.
Proof.
  destruct n as [|q| |]; simpl; try discriminate; try done.
  intros H. split; [|done]. apply negb_true_iff.
  destruct (Qeq_bool q 0) eqn:E; [|done].
  apply Qeq_bool_iff in E. apply orb_prop in H as [H|H]; apply Qltb_lt in H; lra.
Qed.

(** X25. What the scoring client surfaces for a numeric confidence: the
    number itself, in an unchanged analysis, when it lies in 0..100, else
    a number in 0..100. *)
Lemma checkAnalysis_number analysis out n :
  checkAnalysis analysis = inr out ->
  confidencePercentage analysis = Some (JNumber n) ->
  n <> NaN ->
  exists n',
    confidencePercentage out = Some (JNumber n')
    /\ inConfidenceRange (JNumber n') = true
    /\ (inConfidenceRange (JNumber n) = true -> out = analysis).
Proof.
  unfold checkAnalysis, confidencePercentage.
  destruct analysis as [| | | | |members]; try done.
  destruct (falsy _ || falsy _ || falsy _ || falsy _); [done|].
  simpl getProperty.
  destruct (lookupMember "hiring_recommendation" members)
    as [[| | | | |recommendation]|] eqn:Hr; try done.
  simpl. intros Hout Hcp Hn. rewrite Hcp in Hout.
  destruct (number_ltb n (Num 0) || number_ltb (Num 100) n) eqn:Hclamp.
  - destruct (clamped_number_truthy n Hclamp) as [Ht _]. rewrite Ht in Hout.
    simpl in Hout. injection Hout as <-.
    eexists. simpl. rewrite lookupMember_setMember. simpl.
    rewrite lookupMember_setMember. split; [reflexivity|].
    split; [by apply clamp_in_range|].
    intros Hin. apply in_range_not_clamped in Hin. congruence.
  - injection Hout as <-. exists n. simpl. rewrite Hr. simpl.
    split; [done|]. split; [|done].
    destruct n as [|q| |]; simpl in *; try done.
    apply orb_false_elim in Hclamp as [H0 H100].
    apply Qltb_ge in H0, H100. apply andb_true_intro.
    split; apply Qle_bool_iff; lra.
Qed.

(** A response that parses reaches [checkAnalysis]. *)
Lemma analyzeWithOpenAI_parsed JSON_parse axios_post prompt input c k model
    d e analysis :
  axios_post model prompt input (String c k) = inr (Some (String d e)) ->
  JSON_parse (String d e) = Some analysis ->
  analyzeWithOpenAI JSON_parse axios_post prompt input (Some (String c k)) model
  = match checkAnalysis analysis with
    | inl (AxiosError status dataErrorMessage message) =>
        analyzeWithOpenAI JSON_parse
          (fun _ _ _ _ => inl (AxiosError status dataErrorMessage message))
          prompt input (Some (String c k)) model
    | other => other
    end.
Proof.
  intros Hpost Hparse. unfold analyzeWithOpenAI. rewrite Hpost. simpl.
  rewrite Hparse. destruct (checkAnalysis analysis) as [[]|]; reflexivity.
Qed.

(** C7, where the code departs from it. A confidence_percentage of 150 is
    accepted and surfaced as 100; a confidence_percentage that is the
    string "high" is accepted too, and surfaced as NaN, which is not a
    number in 0..100: [Math.min(100, "high")] is NaN, and the fallback
    [|| 50] only replaces falsy values. *)
Theorem checkAnalysis_confidence_high_is_NaN :
  checkAnalysis (analysisWithConfidence (JNumber (Num 150)))
  = inr (analysisWithConfidence (JNumber (Num 100)))
  /\ checkAnalysis (analysisWithConfidence (JString "high"))
     = inr (analysisWithConfidence (JNumber NaN))
  /\ inConfidenceRange (JNumber NaN) = false
  /\ checkAnalysis (analysisWithConfidence (JObject []))
     = inr (analysisWithConfidence (JNumber NaN)).
Proof. repeat split. Qed.

(** Non-numeric values the fallback or the conversion does bring into
    range: null, the empty string, a numeric string. *)
Example checkAnalysis_confidence_null :
  checkAnalysis (analysisWithConfidence JNull)
  = inr (analysisWithConfidence (JNumber (Num 50))).
Proof. reflexivity. Qed.

Example checkAnalysis_confidence_numeric_string :
  checkAnalysis (analysisWithConfidence (JString "85"))
  = inr (analysisWithConfidence (JNumber (Num 85))).
Proof. reflexivity. Qed.

Example checkAnalysis_confidence_negative :
  checkAnalysis (analysisWithConfidence (JNumber (Num (-5))))
  = inr (analysisWithConfidence (JNumber (Num 0))).
Proof. reflexivity. Qed.

(** ** The handler *)

Section AnalyzeProperties.

Variable githubUsernameRegex_test : string -> bool.
Variable MissingParamError_message : list string -> string.
Variable parseBoolean : option QueryValue -> option bool.
Variable parseInt10 : option QueryValue -> option Z.
Variable resolveCacheSeconds : option Z -> Z -> Z -> Z -> Z.
Variables STATS_CARD_DEFAULT STATS_CARD_MIN STATS_CARD_MAX : Z.
Variable analyzeCandidate : string -> JobRole -> Options -> Exception + JSON.

Local Abbreviation run :=
  (handler githubUsernameRegex_test MissingParamError_message parseBoolean
     parseInt10 resolveCacheSeconds STATS_CARD_DEFAULT STATS_CARD_MIN
     STATS_CARD_MAX analyzeCandidate).

(** The catch block sets the error cache headers once and calls nothing. *)
Lemma catchBlock_effects error :
  let effects := snd (catchBlock MissingParamError_message error) in
  countEffects isSetErrorCacheHeaders effects = 1%nat
  /\ countEffects isSetCacheHeaders effects = 0%nat
  /\ countEffects isAnalyzeCandidate effects = 0%nat
  /\ (forall header, countEffects (setsHeader header) effects = 0%nat)
  /\ status (fst (catchBlock MissingParamError_message error)) <> 200.
Proof. destruct error; simpl; repeat split; done. Qed.

Lemma countEffects_app p (l1 l2 : list Effect) :
  countEffects p (l1 ++ l2) = (countEffects p l1 + countEffects p l2)%nat.
Proof. unfold countEffects. by rewrite List.filter_app, List.length_app. Qed.

(** A username whose trimmed length exceeds 39 is refused by the
    validator, whatever the grammar test would say. *)
Lemma validateUsername_long u :
  JsString.length (JsString.trim u) > 39 ->
  validateUsername githubUsernameRegex_test (Some (QString u))
  = inl (CustomError "Username must be 39 characters or less" MISSING_PARAMETER).
Proof.
  intros Hlen. unfold validateUsername.
  destruct u as [|c u].
  - cbv in Hlen. discriminate.
  - destruct (Z.eqb_spec (JsString.length (JsString.trim (String c u))) 0); [lia|].
    destruct (Z.gtb_spec (JsString.length (JsString.trim (String c u))) 39);
      [done | lia].
Qed.

(** C8, as the code has it. For a username whose trimmed length exceeds
    39 the handler makes no call to [analyzeCandidate], and so no request
    to GitHub or to the scoring engine; it answers 400, "Username must be
    39 characters or less", when the rate limiter admits the request, and
    429 when it does not: the rate-limit gate comes before validation. *)
Theorem long_username_rejected_before_upstream req now retryNow key
    (m : gmap string RateLimitRecord) u :
  query req !! "username" = Some (QString u) ->
  JsString.length (JsString.trim u) > 39 ->
  let '(response, effects, _) := run req now retryNow key m in
  let admittedByLimiter :=
    allowed (fst (checkRateLimit now (getClientIdentifier req) 10 60000 m)) in
  countEffects isAnalyzeCandidate effects = 0%nat
  /\ status response = (if admittedByLimiter then 400 else 429)
  /\ (if admittedByLimiter
      then body response = ErrorBody "Username must be 39 characters or less"
      else True).
Proof.
  intros Hq Hlen. unfold handler.
  destruct (checkRateLimit now (getClientIdentifier req) 10 60000 m)
    as [rateLimit m'].
  simpl fst. destruct (allowed rateLimit); simpl negb; cbv iota.
  - rewrite Hq, validateUsername_long by done. repeat split.
  - repeat split.
Qed.

(** C4, as the code has it. Every response sets each of the three
    rate-limit headers exactly once. A cache-header kind is set exactly
    once on the paths that reach the [try] block - the success cache
    headers when the answer is 200, the error cache headers otherwise -
    and not at all on the 429, the username-400 and the missing-key-500
    paths. *)
Theorem handler_header_sets req now retryNow key
    (m : gmap string RateLimitRecord) :
  let '(response, effects, _) := run req now retryNow key m in
  countEffects (setsHeader "X-RateLimit-Limit") effects = 1%nat
  /\ countEffects (setsHeader "X-RateLimit-Remaining") effects = 1%nat
  /\ countEffects (setsHeader "X-RateLimit-Reset") effects = 1%nat
  /\ (countEffects isSetCacheHeaders effects
      + countEffects isSetErrorCacheHeaders effects)%nat
     = (if reachesJobRole githubUsernameRegex_test req now key m
        then 1%nat else 0%nat)
  /\ countEffects isSetCacheHeaders effects
     = (if status response =? 200 then 1%nat else 0%nat)
  /\ (if reachesJobRole githubUsernameRegex_test req now key m then True
      else status response = 429 \/ status response = 400
           \/ status response = 500).
Proof.
  unfold handler, reachesJobRole.
  destruct (checkRateLimit now (getClientIdentifier req) 10 60000 m)
    as [rateLimit m'].
  simpl fst. destruct (allowed rateLimit); simpl negb; cbv iota;
    [|by simpl; repeat split; auto].
  destruct (validateUsername githubUsernameRegex_test (query req !! "username"))
    as [[]|validatedUsername]; try (by simpl; repeat split; auto).
  destruct key as [[|c key]|]; try (by simpl; repeat split; auto).
  simpl andb.
  destruct (parseJobRole req) as [error|jobRole].
  - destruct (catchBlock_effects error) as (He & Hc & _ & Hh & Hs).
    destruct (catchBlock MissingParamError_message error) as [response caught].
    cbn [fst snd] in *. rewrite !countEffects_app, He, Hc, !Hh.
    apply Z.eqb_neq in Hs. rewrite Hs. by repeat split.
  - match goal with
    | |- context [analyzeCandidate ?u ?j ?o] =>
        destruct (analyzeCandidate u j o) as [error|analysis]
    end.
    + destruct (catchBlock_effects error) as (He & Hc & _ & Hh & Hs).
      destruct (catchBlock MissingParamError_message error) as [response caught].
      cbn [fst snd] in *. rewrite !countEffects_app, He, Hc, !Hh.
      apply Z.eqb_neq in Hs. rewrite Hs. by repeat split.
    + by repeat split.
Qed.

(** The handler reads nine query parameters and no other. *)
Lemma handler_query_ext req1 req2 now retryNow key
    (m : gmap string RateLimitRecord) :
  headers req1 = headers req2 ->
  socket_remoteAddress req1 = socket_remoteAddress req2 ->
  Forall (fun name => query req1 !! name = query req2 !! name)
    ["username"; "include_all_commits"; "cache_seconds"; "openai_model";
     "job_title"; "required_skills"; "nice_to_have_skills"; "seniority";
     "focus"] ->
  run req1 now retryNow key m = run req2 now retryNow key m.
Proof.
  intros Hh Hs Hq.
  repeat match goal with
         | H : Forall _ (_ :: _) |- _ =>
             let E := fresh "E" in
             apply Forall_cons_iff in H as [E H]; cbv beta in E
         end.
  unfold handler, parseJobRole, getClientIdentifier.
  rewrite Hh, Hs, E, E0, E1, E2, E3, E4, E5, E6, E7. reflexivity.
Qed.

(** The endpoint reads the API key from the environment only: adding an
    [openai_api_key] query parameter to a request, or removing it,
    changes neither the response, nor the effects, nor the rate-limit
    map left behind. *)
Lemma handler_ignores_openai_api_key req value now retryNow key
    (m : gmap string RateLimitRecord) :
  run (withQuery req (<["openai_api_key" := value]> (query req)))
      now retryNow key m
  = run req now retryNow key m
  /\ run (withQuery req (delete "openai_api_key" (query req)))
       now retryNow key m
     = run req now retryNow key m.
Proof.
  split; (apply handler_query_ext; [done | done |]);
    repeat constructor; simpl;
    by rewrite ?lookup_insert_ne, ?lookup_delete_ne.
Qed.

(** A failure of a field-level check of [parseJobRole] is a
    [CustomError], and the catch block answers a [CustomError] with 500:
    only the first check, for absent parameters, throws the
    [MissingParamError] that is answered with 400. *)
Lemma catchBlock_CustomError message type :
  fst (catchBlock MissingParamError_message (CustomError message type))
  = {| status := 500; body := ErrorBody message |}.
Proof. reflexivity. Qed.

(** Inside the [try] block the answer to a failure of [parseJobRole] is
    that of the catch block. *)
Lemma handler_parseJobRole_failure req now retryNow key
    (m : gmap string RateLimitRecord) error :
  reachesJobRole githubUsernameRegex_test req now key m = true ->
  parseJobRole req = inl error ->
  fst (fst (run req now retryNow key m))
  = fst (catchBlock MissingParamError_message error).
Proof.
  unfold reachesJobRole, handler. intros Hreach Herr.
  destruct (checkRateLimit now (getClientIdentifier req) 10 60000 m)
    as [rateLimit m'].
  simpl fst in Hreach. destruct (allowed rateLimit); [|done].
  destruct (validateUsername githubUsernameRegex_test (query req !! "username"));
    [done|].
  destruct key as [[|c key]|]; [done| |done].
  simpl negb. cbv iota. rewrite Herr.
  by destruct (catchBlock MissingParamError_message error).
Qed.

(** The validators throw nothing but [CustomError]. *)
Lemma validateStringInput_throws value fieldName maxLength error :
  validateStringInput value fieldName maxLength = inl error ->
  exists message, error = CustomError message MISSING_PARAMETER.
Proof.
  unfold validateStringInput. intros H.
  repeat (case_match; simplify_eq); eauto.
Qed.

Lemma validateSkills_throws skillsString fieldName required error :
  validateSkills skillsString fieldName required = inl error ->
  exists message, error = CustomError message MISSING_PARAMETER.
Proof.
  unfold validateSkills. intros H.
  repeat (case_match; simplify_eq); eauto.
Qed.

(** X14. [parseJobRole] throws the [MissingParamError], the only error the
    catch block answers with 400, exactly when one of the four required
    parameters is absent or empty, whatever the other parameters hold. *)
Lemma parseJobRole_MissingParamError req :
  (exists missed, parseJobRole req = inl (MissingParamError missed))
  <-> absent (query req !! "job_title") || absent (query req !! "required_skills")
      || absent (query req !! "seniority") || absent (query req !! "focus")
      = true.
Proof.
  unfold parseJobRole.
  destruct (query req !! "seniority") as [seniority|] eqn:Hs;
    [|split; [intros _; by rewrite !orb_true_r | eauto]].
  destruct (query req !! "focus") as [focus|] eqn:Hf;
    [|split; [intros _; by rewrite !orb_true_r | eauto]].
  destruct (absent (query req !! "job_title")
            || absent (query req !! "required_skills")
            || absent (Some seniority) || absent (Some focus)) eqn:Habs;
    [split; eauto|].
  split; [|done]. intros [missed H]. exfalso.
  destruct (validateStringInput (query req !! "job_title") "job_title" 100)
    as [e|?] eqn:E1;
    [apply validateStringInput_throws in E1 as [? ->]; simpl in H; congruence|].
  destruct (validateSkills (query req !! "required_skills") "required_skills" true)
    as [e|?] eqn:E2;
    [apply validateSkills_throws in E2 as [? ->]; simpl in H; congruence|].
  destruct (validateSkills (query req !! "nice_to_have_skills")
              "nice_to_have_skills" false)
    as [e|?] eqn:E3;
    [apply validateSkills_throws in E3 as [? ->]; simpl in H; congruence|].
  simpl in H. unfold toLowerCase in H.
  repeat (case_match; simplify_eq; simpl in H); done.
Qed.

End AnalyzeProperties.

Lemma long_username_rejected_before_upstream_witness :
  let req :=
    requestOf "198.51.100.4" (queryOf (JsString.repeat "a" 40) "mid" "frontend") in
  let '(response, effects, _) := exampleHandler req 0 0 (Some "sk-test") ∅ in
  countEffects isAnalyzeCandidate effects = 0%nat
  /\ status response = 400
  /\ body response = ErrorBody "Username must be 39 characters or less".
Proof.
  exact (long_username_rejected_before_upstream githubUsernameGrammar
           (fun missed => "Missing params: " ++ JsString.join ", " missed)
           (fun _ => None) (fun _ => None) (fun _ def _ _ => def) 1800 0 86400
           exampleAnalyzer
           (requestOf "198.51.100.4"
              (queryOf (JsString.repeat "a" 40) "mid" "frontend"))
           0 0 (Some "sk-test") ∅ (JsString.repeat "a" 40) eq_refl eq_refl).
Defined.

(** C8 as stated fails for a request the rate limiter denies: the
    eleventh request of a client within the window, with a username of 40
    characters, is answered 429, not 400. *)
Lemma long_username_rate_limited_answers_429 :
  let req :=
    requestOf "198.51.100.4" (queryOf (JsString.repeat "a" 40) "mid" "frontend") in
  let '(response, effects, _) :=
    exampleHandler req 10 10 (Some "sk-test") (afterTenCalls "198.51.100.4") in
  JsString.length (JsString.trim (JsString.repeat "a" 40)) = 40
  /\ status response = 429
  /\ status response <> 400.
Proof. vm_compute. repeat split; discriminate. Qed.

(** C4 as stated fails on the paths that return before the [try] block:
    the request of the "Invalid Username" test is answered 400 with the
    three rate-limit headers and with no cache header of either kind. *)
Lemma invalid_username_sets_no_cache_header :
  let req := requestOf "198.51.100.4" (queryOf "invalid@user" "mid" "frontend") in
  let '(response, effects, _) := exampleHandler req 0 0 (Some "sk-test") ∅ in
  status response = 400
  /\ countEffects isSetCacheHeaders effects = 0%nat
  /\ countEffects isSetErrorCacheHeaders effects = 0%nat
  /\ (countEffects isSetCacheHeaders effects
      + countEffects isSetErrorCacheHeaders effects)%nat <> 1%nat.
Proof. vm_compute. repeat split; discriminate. Qed.

(** C1, where the code departs from it. With the request admitted, the
    username valid and the key configured, a field-level failure of
    [parseJobRole] is thrown as a [CustomError], which the catch block
    answers with 500: an invalid seniority (the "Invalid Seniority Value"
    test, which expects 400), an invalid focus, a job_title of 101
    characters, a required_skills of commas only. Only a request with one
    of the four parameters absent is answered 400. *)
Theorem field_failures_answer_500 mpMsg pb pi rcs def mn mx ac now retryNow :
  let answer params :=
    fst (fst (handler githubUsernameGrammar mpMsg pb pi rcs def mn mx ac
                (requestOf "198.51.100.4" params) now retryNow
                (Some "sk-test") ∅)) in
  answer (queryOf "octocat" "invalid" "frontend")
  = {| status := 500;
       body := ErrorBody "Invalid seniority. Must be one of: junior, mid, senior" |}
  /\ answer (queryOf "octocat" "mid" "mobile")
     = {| status := 500;
          body := ErrorBody
                    "Invalid focus. Must be one of: frontend, backend, fullstack, data, infra" |}
  /\ answer [("username", "octocat"); ("job_title", JsString.repeat "a" 101);
             ("required_skills", "JS"); ("seniority", "mid");
             ("focus", "frontend")]
     = {| status := 500;
          body := ErrorBody "job_title must be 100 characters or less" |}
  /\ answer [("username", "octocat"); ("job_title", "Engineer");
             ("required_skills", ", ,"); ("seniority", "mid");
             ("focus", "frontend")]
     = {| status := 500;
          body := ErrorBody "required_skills must contain at least one skill" |}
  /\ answer [("username", "octocat"); ("job_title", "Engineer")]
     = {| status := 400;
          body := ErrorBody
                    (mpMsg ["job_title"; "required_skills"; "seniority"; "focus"]) |}.
Proof. repeat split. Qed.

(** ** The handler of api/analyze.js *)

(** C5, where the code departs from it. The handler of api/analyze.js
    takes the API key from the [openai_api_key] query parameter before
    the environment. With no key in the environment, the request of the
    "Valid Request" test is answered 400 and nothing is called; the same
    request with [openai_api_key] added goes on to [analyzeCandidate],
    with the key of the query. The other handler of the endpoint ignores
    the parameter ([handler_ignores_openai_api_key]). *)
Theorem api_analyze_takes_key_from_query mpMsg pb pi rcs def mn mx ac :
  let run := ApiAnalyze.handler mpMsg pb pi rcs def mn mx ac in
  let params := queryOf "octocat" "senior" "fullstack" in
  let without := run (requestOf "198.51.100.4" params) None in
  let withKey :=
    run (requestOf "198.51.100.4" (("openai_api_key", "sk-from-query") :: params))
      None in
  without
  = ({| status := 400;
        body := ErrorBody
                  "OpenAI API key is required. Provide 'openai_api_key' query parameter or set OPENAI_API_KEY environment variable." |},
     [ApiAnalyze.SetHeader "Content-Type" (HString "application/json")])
  /\ firstn 2 (snd withKey)
     = [ApiAnalyze.SetHeader "Content-Type" (HString "application/json");
        ApiAnalyze.AnalyzeCandidate (QString "octocat")
          {| ApiAnalyze.title := QString "Engineer";
             ApiAnalyze.required_skills := ["JS"];
             ApiAnalyze.nice_to_have_skills := [];
             ApiAnalyze.seniority := "senior";
             ApiAnalyze.focus := "fullstack" |}
          {| ApiAnalyze.include_all_commits := pb None;
             ApiAnalyze.openai_api_key := QString "sk-from-query";
             ApiAnalyze.model := QString "gpt-4o" |}]
  /\ without <> withKey.
Proof.
  intros run params without withKey.
  assert (firstn 2 (snd withKey)
          = [ApiAnalyze.SetHeader "Content-Type" (HString "application/json");
             ApiAnalyze.AnalyzeCandidate (QString "octocat")
               {| ApiAnalyze.title := QString "Engineer";
                  ApiAnalyze.required_skills := ["JS"];
                  ApiAnalyze.nice_to_have_skills := [];
                  ApiAnalyze.seniority := "senior";
                  ApiAnalyze.focus := "fullstack" |}
               {| ApiAnalyze.include_all_commits := pb None;
                  ApiAnalyze.openai_api_key := QString "sk-from-query";
                  ApiAnalyze.model := QString "gpt-4o" |}]) as Hwith.
  { subst withKey run params. unfold ApiAnalyze.handler.
    set (role := ApiAnalyze.parseJobRole _).
    vm_compute in role. subst role. cbv beta iota zeta.
    set (req := requestOf _ _).
    replace (query req !! "username") with (Some (QString "octocat"))
      by (vm_compute; reflexivity).
    replace (query req !! "openai_api_key") with (Some (QString "sk-from-query"))
      by (vm_compute; reflexivity).
    replace (query req !! "openai_model") with (@None QueryValue)
      by (vm_compute; reflexivity).
    replace (query req !! "include_all_commits") with (@None QueryValue)
      by (vm_compute; reflexivity).
    cbn [absent].
    match goal with
    | |- context [ac ?u ?j ?o] => destruct (ac u j o) as [error|analysis]
    end.
    - destruct error; reflexivity.
    - reflexivity. }
  split; [reflexivity|]. split; [exact Hwith|].
  intros Heq. rewrite <- Heq in Hwith. discriminate Hwith.
Qed.

(** ** End to end *)

(** The request of the "Valid Request" test, with a key configured, is
    answered 200 with the four sections of the analysis, after one call
    of the analyzer, with the success cache headers. *)
Example valid_request_answers_200 :
  exampleHandler (requestOf "198.51.100.4" (queryOf "octocat" "senior" "fullstack"))
    0 0 (Some "sk-test") ∅
  = ({| status := 200;
        body := AnalysisBody (analysisWithConfidence (JNumber (Num 85))) |},
     [SetHeader "Content-Type" (HString "application/json");
      SetHeader "X-RateLimit-Limit" (HString "10");
      SetHeader "X-RateLimit-Remaining" (HString "9");
      SetHeader "X-RateLimit-Reset" (HIsoDate 60000);
      AnalyzeCandidate "octocat"
        {| title := "Engineer"; required_skills := ["JS"];
           nice_to_have_skills := []; seniority := "senior";
           focus := "fullstack" |}
        {| include_all_commits := None; openai_api_key := "sk-test";
           model := "gpt-4o" |};
      SetCacheHeaders 1800],
     {["198.51.100.4" := {| count := 1; resetAt := 60000 |}]}).
Proof. vm_compute. reflexivity. Qed.

(** The aggregate the analyzer sends for the example fetches. *)
Example example_aggregate :
  aggregateGitHubData "octocat" (exampleFetch "octocat" false)
  = inr {| candidate :=
             {| username := "octocat";
                profile := {| public_repos := 8; followers := 3;
                              account_age_years := 2 |} |};
           github_stats :=
             {| total_commits_estimate := 240;
                commit_frequency := "medium";
                commit_consistency := "very_consistent";
                primary_languages :=
                  [{| language := "JavaScript"; percentage := (300 # 400) * 100 |};
                   {| language := "Ruby"; percentage := (100 # 400) * 100 |}];
                top_repositories := [];
                pull_requests := {| opened := 12; merged := 9; reviewed := 4 |};
                issues := {| issues_opened := 0; issues_closed := 7 |};
                collaboration_signals :=
                  {| solo_projects_ratio := 1; team_projects_ratio := 0 |};
                readme_quality := "poor";
                documentation_signal := "low" |};
           job_role := None |}.
Proof. reflexivity. Qed.

(** * Further properties *)

(** ** Strings *)

Lemma trimStart_head_not_space s c t :
  JsString.trimStart s = String c t -> JsString.isWhiteSpace c = false.
Proof.
  induction s as [|d s IH]; simpl; [done|].
  destruct (JsString.isWhiteSpace d) eqn:E; [exact IH|].
  intros H. injection H as <- _. exact E.
Qed.

Lemma trimEnd_idempotent s :
  JsString.trimEnd (JsString.trimEnd s) = JsString.trimEnd s.
Proof.
  induction s as [|c s IH]; simpl; [done|].
  destruct (JsString.trimEnd s) as [|d t] eqn:E.
  - destruct (JsString.isWhiteSpace c) eqn:Ec; simpl; [done|]. by rewrite Ec.
  - simpl in *. rewrite IH. done.
Qed.

Lemma trimEnd_keeps_head c s :
  JsString.isWhiteSpace c = false ->
  exists t, JsString.trimEnd (String c s) = String c t.
Proof.
  intros Hc. simpl. destruct (JsString.trimEnd s); rewrite ?Hc; eauto.
Qed.

Lemma trim_idempotent s : JsString.trim (JsString.trim s) = JsString.trim s.
Proof.
  unfold JsString.trim.
  destruct (JsString.trimStart s) as [|c t] eqn:E; [done|].
  pose proof (trimStart_head_not_space _ _ _ E) as Hc.
  destruct (trimEnd_keeps_head c t Hc) as [u Hu]. rewrite Hu.
  assert (JsString.trimStart (String c u) = String c u) as ->
    by (simpl; by rewrite Hc).
  rewrite <- Hu. apply trimEnd_idempotent.
Qed.


Lemma split_comma_commaFree s :
  commaFree s -> JsString.split_comma s = [s].
Proof.
  unfold commaFree. induction s as [|c s IH]; simpl; [done|].
  intros H. destruct (Ascii.eqb_spec c ","); [tauto|].
  rewrite IH by tauto. done.
Qed.

Lemma split_comma_cons x rest :
  commaFree x ->
  JsString.split_comma (x ++ "," ++ rest) = x :: JsString.split_comma rest.
Proof.
  unfold commaFree. induction x as [|c x IH]; simpl; [done|].
  intros H. destruct (Ascii.eqb_spec c ","); [tauto|].
  rewrite IH by tauto. done.
Qed.

(** Splitting undoes joining. *)
Lemma split_comma_join skills :
  skills <> [] -> Forall commaFree skills ->
  JsString.split_comma (JsString.join "," skills) = skills.
Proof.
  induction skills as [|x [|y ys] IH]; [done| |].
  - intros _ H. inversion H; subst. by apply split_comma_commaFree.
  - intros _ H. inversion H as [|? ? Hx Hrest]; subst.
    change (JsString.join "," (x :: y :: ys))
      with (x ++ "," ++ JsString.join "," (y :: ys)).
    rewrite split_comma_cons by done. f_equal. by apply IH.
Qed.

Lemma split_comma_all_commaFree s : Forall commaFree (JsString.split_comma s).
Proof.
  induction s as [|c s IH]; simpl.
  - constructor; [unfold commaFree; simpl; tauto | constructor].
  - destruct (Ascii.eqb_spec c ",").
    + constructor; [unfold commaFree; simpl; tauto | exact IH].
    + destruct (JsString.split_comma s) as [|x xs].
      * constructor; [|constructor]. unfold commaFree. simpl. intros [H|[]].
        congruence.
      * inversion IH as [|? ? Hx Hxs]; subst. constructor; [|exact Hxs].
        unfold commaFree in *. simpl. intros [H|H]; [congruence | tauto].
Qed.

Lemma trimStart_commaFree s : commaFree s -> commaFree (JsString.trimStart s).
Proof.
  unfold commaFree. induction s as [|c s IH]; simpl; [done|].
  intros H. destruct (JsString.isWhiteSpace c); [tauto | exact H].
Qed.

Lemma trimEnd_commaFree s : commaFree s -> commaFree (JsString.trimEnd s).
Proof.
  unfold commaFree. induction s as [|c s IH]; simpl; [done|].
  intros H. destruct (JsString.trimEnd s) as [|d t].
  - destruct (JsString.isWhiteSpace c); simpl; tauto.
  - simpl in *. tauto.
Qed.

Lemma trim_commaFree s : commaFree s -> commaFree (JsString.trim s).
Proof. intros H. by apply trimEnd_commaFree, trimStart_commaFree. Qed.

Lemma truthy_nonempty s : JsString.truthy s = true <-> s <> "".
Proof. destruct s; simpl; split; done. Qed.

Lemma length_nonempty s : s <> "" -> 1 <= JsString.length s.
Proof. destruct s; [done|]. unfold JsString.length. simpl. lia. Qed.

(** ** The validators *)

(** X1. A username [validateUsername] accepts is the trimmed parameter,
    has between 1 and 39 characters and passes the grammar test, and
    validating it again returns it unchanged. *)
Theorem validateUsername_accepts regex user u :
  validateUsername regex user = inr u ->
  (exists raw, user = Some (QString raw) /\ u = JsString.trim raw)
  /\ 1 <= JsString.length u <= 39
  /\ regex u = true
  /\ validateUsername regex (Some (QString u)) = inr u.
Proof.
  unfold validateUsername.
  destruct user as [[[|c raw]|]|]; try done.
  remember (JsString.trim (String c raw)) as t eqn:Et.
  destruct (Z.eqb_spec (JsString.length t) 0) as [|Hne]; [done|].
  destruct (Z.gtb_spec (JsString.length t) 39) as [|Hle]; [done|].
  destruct (regex t) eqn:Hregex; [|done].
  simpl. intros H. injection H as <-.
  assert (0 <= JsString.length t) by (unfold JsString.length; lia).
  assert (JsString.trim t = t) as Htrim by (subst t; apply trim_idempotent).
  split; [by exists (String c raw)|]. split; [lia|]. split; [done|].
  clear Et. destruct t as [|d t']; [done|]. rewrite Htrim.
  destruct (Z.eqb_spec (JsString.length (String d t')) 0); [lia|].
  destruct (Z.gtb_spec (JsString.length (String d t')) 39); [lia|].
  by rewrite Hregex.
Qed.

Lemma validateUsername_accepts_witness :
  validateUsername githubUsernameGrammar (Some (QString "  octo-cat ")) = inr "octo-cat"
  /\ validateUsername githubUsernameGrammar (Some (QString "octo-cat")) = inr "octo-cat".
Proof.
  split; [reflexivity|].
  apply (validateUsername_accepts githubUsernameGrammar
           (Some (QString "  octo-cat ")) "octo-cat").
  reflexivity.
Defined.

Lemma validateStringInput_sound value fieldName maxLength t :
  validateStringInput value fieldName maxLength = inr t
  <-> exists raw,
        value = Some (QString raw) /\ t = JsString.trim raw
        /\ 1 <= JsString.length t <= maxLength.
Proof.
  unfold validateStringInput. split.
  - destruct value as [[[|c raw]|]|]; try done.
    set (u := JsString.trim (String c raw)).
    destruct (Z.eqb_spec (JsString.length u) 0) as [|Hne]; [done|].
    destruct (Z.gtb_spec (JsString.length u) maxLength) as [|Hle]; [done|].
    intros H. injection H as <-. exists (String c raw).
    assert (0 <= JsString.length u) by (unfold JsString.length; lia).
    repeat split; lia.
  - intros (raw & -> & -> & Hlen).
    destruct raw as [|c raw]; [cbv in Hlen; destruct Hlen; done|].
    destruct (Z.eqb_spec (JsString.length (JsString.trim (String c raw))) 0);
      [lia|].
    destruct (Z.gtb_spec (JsString.length (JsString.trim (String c raw)))
                maxLength); [lia | done].
Qed.

(** X2. [validateStringInput] returns a value exactly for a string
    parameter whose trimmed text has between 1 and maxLength characters,
    and the value is that trimmed text. *)
Theorem validateStringInput_accepts_iff value fieldName maxLength t :
  validateStringInput value fieldName maxLength = inr t
  <-> exists raw,
        value = Some (QString raw) /\ t = JsString.trim raw
        /\ 1 <= JsString.length t <= maxLength.
Proof. apply validateStringInput_sound. Qed.

Lemma validateSkills_sound skillsString fieldName required skills :
  validateSkills skillsString fieldName required = inr skills ->
  Forall wellFormedSkill skills
  /\ Z.of_nat (List.length skills) <= 50
  /\ (required = true -> skills <> []).
Proof.
  unfold validateSkills.
  destruct skillsString as [[[|c raw]|]|].
  - destruct required; [done|]. intros H. injection H as <-.
    split; [constructor|]. split; [simpl; lia | done].
  - set (l := List.filter JsString.truthy
                (List.map JsString.trim (JsString.split_comma (String c raw)))).
    destruct (required && (Z.of_nat (List.length l) =? 0)) eqn:Hreq; [done|].
    destruct (Z.gtb_spec (Z.of_nat (List.length l)) 50) as [|Hcount]; [done|].
    destruct (existsb (fun skill => JsString.length skill >? 50) l) eqn:Hlong;
      [done|].
    intros H. injection H as <-. split; [|split; [done|]].
    + apply List.Forall_forall. intros k Hk.
      assert (JsString.length k <= 50) as Hlen.
      { destruct (Z.gtb_spec (JsString.length k) 50) as [Hgt|]; [|done].
        assert (existsb (fun skill => JsString.length skill >? 50) l = true)
          as Hex; [|congruence].
        apply existsb_exists. exists k. split; [done|]. by apply Z.gtb_lt. }
      subst l. apply List.filter_In in Hk as [Hk Hne].
      apply List.in_map_iff in Hk as (piece & <- & Hpiece).
      split; [by apply truthy_nonempty|]. split; [apply trim_idempotent|].
      split; [|done]. apply trim_commaFree.
      pose proof (split_comma_all_commaFree (String c raw)) as Hall.
      by eapply List.Forall_forall in Hall.
    + intros ->. simpl in Hreq. intros Hl. rewrite Hl in Hreq. done.
  - done.
  - destruct required; [done|]. intros H. injection H as <-.
    split; [constructor|]. split; [simpl; lia | done].
Qed.

(** X3. Every skill [validateSkills] returns is not empty, is trimmed,
    holds no comma and has 50 characters at most; there are 50 of them
    at most, and at least one when the field is required. *)
Theorem validateSkills_returns_well_formed skillsString fieldName required skills :
  validateSkills skillsString fieldName required = inr skills ->
  Forall wellFormedSkill skills
  /\ Z.of_nat (List.length skills) <= 50
  /\ (required = true -> skills <> []).
Proof. apply validateSkills_sound. Qed.

Lemma validateSkills_returns_well_formed_witness :
  validateSkills (Some (QString " JS, ,React ,")) "required_skills" true
  = inr ["JS"; "React"]
  /\ Forall wellFormedSkill ["JS"; "React"].
Proof.
  split; [reflexivity|].
  apply (validateSkills_returns_well_formed (Some (QString " JS, ,React ,"))
           "required_skills" true ["JS"; "React"]).
  reflexivity.
Defined.

(** X4. Joining well-formed skills with commas and validating the text
    gives the skills back: up to 50 skills of up to 50 characters each are
    accepted as they are. *)
Theorem validateSkills_join_round_trip fieldName required skills :
  skills <> [] ->
  Forall wellFormedSkill skills ->
  Z.of_nat (List.length skills) <= 50 ->
  validateSkills (Some (QString (JsString.join "," skills))) fieldName required
  = inr skills.
Proof.
  intros Hne Hwf Hcount. unfold validateSkills.
  assert (JsString.split_comma (JsString.join "," skills) = skills) as Hsplit.
  { apply split_comma_join; [done|].
    eapply List.Forall_impl; [|exact Hwf]. by intros s (_ & _ & H & _). }
  assert (List.map JsString.trim skills = skills) as Htrim.
  { clear -Hwf. induction Hwf as [|s l (_ & Hs & _) _ IH]; simpl; [done|].
    by rewrite Hs, IH. }
  assert (List.filter JsString.truthy skills = skills) as Hfilter.
  { clear -Hwf. induction Hwf as [|s l (Hs & _) _ IH]; simpl; [done|].
    apply truthy_nonempty in Hs. by rewrite Hs, IH. }
  assert (existsb (fun skill => JsString.length skill >? 50) skills = false)
    as Hlong.
  { clear -Hwf. induction Hwf as [|s l (_ & _ & _ & Hs) _ IH]; simpl; [done|].
    rewrite IH. destruct (Z.gtb_spec (JsString.length s) 50); [lia | done]. }
  destruct (JsString.join "," skills) as [|c text] eqn:Hjoin.
  - destruct skills as [|s l]; [done|]. inversion Hwf as [|? ? (Hs & _) _]; subst.
    exfalso. destruct s as [|d s]; [done|].
    destruct l; simpl in Hjoin; discriminate.
  - rewrite Hsplit, Htrim, Hfilter, Hlong.
    destruct (Z.eqb_spec (Z.of_nat (List.length skills)) 0) as [H0|_].
    { destruct skills; [done | simpl in H0; lia]. }
    rewrite andb_false_r.
    destruct (Z.gtb_spec (Z.of_nat (List.length skills)) 50); [lia | done].
Qed.

Lemma validateSkills_join_round_trip_witness :
  validateSkills (Some (QString "JavaScript,React,Node.js")) "required_skills" true
  = inr ["JavaScript"; "React"; "Node.js"].
Proof.
  apply (validateSkills_join_round_trip "required_skills" true
           ["JavaScript"; "React"; "Node.js"]).
  - discriminate.
  - repeat constructor; try discriminate; try reflexivity;
      unfold commaFree; simpl; intuition discriminate.
  - simpl. lia.
Defined.

(** ** The rate limiter *)

(** X5. A call of [checkRateLimit] reads and writes the record of its
    identifier only: the record of every other identifier is left as it
    is, no record is ever removed, and afterwards the identifier has a
    record. *)
Theorem checkRateLimit_touches_only_its_key now id K W
    (m : gmap string RateLimitRecord) :
  let m' := snd (checkRateLimit now id K W m) in
  (forall id', id' <> id -> m' !! id' = m !! id')
  /\ dom m' = {[id]} ∪ dom m
  /\ is_Some (m' !! id).
Proof.
  unfold checkRateLimit.
  destruct (m !! id) as [record|] eqn:Hm; simpl.
  - assert (id ∈ dom m) as Hin by (apply elem_of_dom; eauto).
    destruct (now >? resetAt record); simpl.
    + split; [intros; by rewrite lookup_insert_ne|].
      split; [by rewrite dom_insert_L | rewrite lookup_insert_eq; eauto].
    + destruct (count record >=? K); simpl.
      * split; [done|]. split; [|eauto].
        apply set_eq. intros x. rewrite elem_of_union, elem_of_singleton.
        split; [tauto | by intros [->|]].
      * split; [intros; by rewrite lookup_insert_ne|].
        split; [by rewrite dom_insert_L | rewrite lookup_insert_eq; eauto].
  - split; [intros; by rewrite lookup_insert_ne|].
    split; [by rewrite dom_insert_L | rewrite lookup_insert_eq; eauto].
Qed.

(** What [checkRateLimit] returns agrees with what it stores: the
    returned resetAt is the stored one and, for a window of non-negative
    length, is not before the time of the call; an allowed call reports
    as remaining the limit less the stored count, and a denied call
    reports 0 and finds the stored count at the limit or above. *)
Theorem checkRateLimit_status_matches_record now id K W
    (m : gmap string RateLimitRecord) :
  0 <= W ->
  let '(status, m') := checkRateLimit now id K W m in
  exists record,
    m' !! id = Some record
    /\ status_resetAt status = resetAt record
    /\ now <= status_resetAt status
    /\ (if allowed status
        then remaining status = K - count record
        else remaining status = 0 /\ K <= count record /\ m' = m).
Proof.
  intros HW. unfold checkRateLimit.
  destruct (m !! id) as [record|] eqn:Hm.
  - destruct (Z.gtb_spec now (resetAt record)).
    + eexists. rewrite lookup_insert_eq. simpl. repeat split; lia.
    + destruct (Z.geb_spec (count record) K).
      * exists record. simpl. repeat split; (done || lia).
      * eexists. rewrite lookup_insert_eq. simpl. repeat split; lia.
  - eexists. rewrite lookup_insert_eq. simpl. repeat split; lia.
Qed.

Lemma checkRateLimit_status_matches_record_witness :
  let '(status, m') :=
    checkRateLimit 10 "203.0.113.7" 10 60000 (afterTenCalls "203.0.113.7") in
  exists record,
    m' !! "203.0.113.7" = Some record
    /\ status_resetAt status = resetAt record
    /\ 10 <= status_resetAt status
    /\ (if allowed status
        then remaining status = 10 - count record
        else remaining status = 0 /\ 10 <= count record
             /\ m' = afterTenCalls "203.0.113.7").
Proof.
  apply (checkRateLimit_status_matches_record 10 "203.0.113.7" 10 60000
           (afterTenCalls "203.0.113.7")).
  lia.
Defined.

Lemma checkRateLimit_keeps_counts_within now id K W
    (m : gmap string RateLimitRecord) :
  1 <= K -> countsWithin K m ->
  countsWithin K (snd (checkRateLimit now id K W m))
  /\ 0 <= remaining (fst (checkRateLimit now id K W m)) < K.
Proof.
  intros HK Hm. unfold checkRateLimit, countsWithin in *.
  destruct (m !! id) as [record|] eqn:Hid.
  - pose proof (map_Forall_lookup_1 _ _ _ _ Hm Hid) as Hrec. simpl in Hrec.
    destruct (now >? resetAt record); simpl.
    + split; [|lia]. apply map_Forall_insert_2; [simpl; lia | done].
    + destruct (Z.geb_spec (count record) K); simpl.
      * split; [done | lia].
      * split; [|lia]. apply map_Forall_insert_2; [simpl; lia | done].
  - simpl. split; [|lia]. apply map_Forall_insert_2; [simpl; lia | done].
Qed.

(** X6. For a limit of at least 1, a run of the limiter - any calls, of
    any identifiers, at any times - keeps every stored count between 1
    and the limit, and every status it returns reports a remaining budget
    between 0 and the limit less 1. *)
Theorem serve_keeps_counts_within K W calls : forall (m : gmap string RateLimitRecord),
  1 <= K -> countsWithin K m ->
  countsWithin K (snd (serve calls K W m))
  /\ Forall (fun s => 0 <= remaining (snd s) < K) (fst (serve calls K W m)).
Proof.
  induction calls as [|[id now] calls IH]; intros m HK Hm; simpl.
  - split; [done | constructor].
  - destruct (checkRateLimit_keeps_counts_within now id K W m HK Hm)
      as [Hm1 Hrem].
    destruct (checkRateLimit now id K W m) as [status m1]. simpl in *.
    destruct (IH m1 HK Hm1) as [Hm2 Hall].
    destruct (serve calls K W m1) as [statuses m2]. simpl in *.
    split; [done | by constructor].
Qed.

Lemma serve_keeps_counts_within_witness :
  let calls := [("a", 0); ("b", 5); ("a", 7); ("a", 9); ("a", 70000)] in
  countsWithin 2 (snd (serve calls 2 60000 ∅))
  /\ Forall (fun s => 0 <= remaining (snd s) < 2) (fst (serve calls 2 60000 ∅)).
Proof.
  apply (serve_keeps_counts_within 2 60000
           [("a", 0); ("b", 5); ("a", 7); ("a", 9); ("a", 70000)] ∅).
  - lia.
  - unfold countsWithin. apply map_Forall_empty.
Defined.

Lemma checkRateLimit_reset_within now id K W t
    (m : gmap string RateLimitRecord) :
  0 <= W -> t <= now -> resetWithin W t m ->
  resetWithin W now (snd (checkRateLimit now id K W m))
  /\ now <= status_resetAt (fst (checkRateLimit now id K W m)) <= now + W.
Proof.
  intros HW Ht Hm.
  assert (resetWithin W now m) as Hnow.
  { unfold resetWithin in *. eapply map_Forall_impl; [exact Hm|].
    simpl. intros. lia. }
  unfold checkRateLimit, resetWithin in *.
  destruct (m !! id) as [record|] eqn:Hid.
  - pose proof (map_Forall_lookup_1 _ _ _ _ Hnow Hid) as Hrec. simpl in Hrec.
    destruct (Z.gtb_spec now (resetAt record)); simpl.
    + split; [|lia]. apply map_Forall_insert_2; [simpl; lia | done].
    + destruct (count record >=? K); simpl.
      * split; [done | lia].
      * split; [|lia]. apply map_Forall_insert_2; [simpl; lia | done].
  - simpl. split; [|lia]. apply map_Forall_insert_2; [simpl; lia | done].
Qed.

(** X7. While the clock does not go back, the resetAt a call returns is
    never in the past and never more than one window ahead of the call,
    for every call of a run that starts with no stored window ending
    later than one window after the start. *)
Theorem serve_reset_in_window K W calls : forall t (m : gmap string RateLimitRecord),
  0 <= W -> resetWithin W t m -> clockFrom t calls ->
  Forall2 (fun call s =>
             snd call <= status_resetAt (snd s) <= snd call + W)
    calls (fst (serve calls K W m)).
Proof.
  induction calls as [|[id now] calls IH]; intros t m HW Hm Hclock; simpl.
  - constructor.
  - destruct Hclock as [Ht Hclock].
    destruct (checkRateLimit_reset_within now id K W t m HW Ht Hm) as [Hm1 Hs].
    destruct (checkRateLimit now id K W m) as [status m1]. simpl in *.
    pose proof (IH now m1 HW Hm1 Hclock) as Hrest.
    destruct (serve calls K W m1) as [statuses m2]. simpl in *.
    by constructor.
Qed.

Lemma serve_reset_in_window_witness :
  let calls := [("a", 0); ("b", 5); ("a", 7); ("a", 70000); ("b", 70000)] in
  Forall2 (fun call s =>
             snd call <= status_resetAt (snd s) <= snd call + 60000)
    calls (fst (serve calls 10 60000 ∅)).
Proof.
  apply (serve_reset_in_window 10 60000
           [("a", 0); ("b", 5); ("a", 7); ("a", 70000); ("b", 70000)] 0 ∅).
  - lia.
  - unfold resetWithin. apply map_Forall_empty.
  - simpl. lia.
Defined.

(** ** The handler, further *)


Section AnalyzeFurther.

Variable githubUsernameRegex_test : string -> bool.
Variable MissingParamError_message : list string -> string.
Variable parseBoolean : option QueryValue -> option bool.
Variable parseInt10 : option QueryValue -> option Z.
Variable resolveCacheSeconds : option Z -> Z -> Z -> Z -> Z.
Variables STATS_CARD_DEFAULT STATS_CARD_MIN STATS_CARD_MAX : Z.
Variable analyzeCandidate : string -> JobRole -> Options -> Exception + JSON.

Local Abbreviation run :=
  (handler githubUsernameRegex_test MissingParamError_message parseBoolean
     parseInt10 resolveCacheSeconds STATS_CARD_DEFAULT STATS_CARD_MIN
     STATS_CARD_MAX analyzeCandidate).

Lemma catchBlock_status error :
  status (fst (catchBlock MissingParamError_message error)) = 400
  \/ status (fst (catchBlock MissingParamError_message error)) = 500.
Proof. destruct error; simpl; auto. Qed.

(** The part of the handler that follows the rate-limit gate leaves the
    map and the three headers alone. *)
Lemma handler_limiter_step req now retryNow key
    (m : gmap string RateLimitRecord) :
  let '(response, effects, m') := run req now retryNow key m in
  let '(s, m1) := checkRateLimit now (getClientIdentifier req) 10 60000 m in
  m' = m1
  /\ (status response =? 429) = negb (allowed s)
  /\ In (SetHeader "X-RateLimit-Limit" (HString "10")) effects
  /\ In (SetHeader "X-RateLimit-Remaining"
           (HString (if allowed s then pretty (remaining s) else "0"))) effects
  /\ In (SetHeader "X-RateLimit-Reset" (HIsoDate (status_resetAt s))) effects.
Proof.
  unfold handler.
  destruct (checkRateLimit now (getClientIdentifier req) 10 60000 m)
    as [rateLimit m'].
  destruct (allowed rateLimit); simpl negb; cbv iota;
    [|by simpl; repeat split; auto].
  destruct (validateUsername githubUsernameRegex_test (query req !! "username"))
    as [[]|validatedUsername]; try (by simpl; repeat split; auto).
  destruct key as [[|c key]|]; try (by simpl; repeat split; auto).
  destruct (parseJobRole req) as [error|jobRole].
  - destruct (catchBlock_status error) as [Hs|Hs].
    all: destruct (catchBlock MissingParamError_message error)
      as [response caught]; simpl in Hs; rewrite Hs;
      by simpl; repeat split; auto.
  - match goal with
    | |- context [analyzeCandidate ?u ?j ?o] =>
        destruct (analyzeCandidate u j o) as [error|analysis]
    end.
    + destruct (catchBlock_status error) as [Hs|Hs].
      all: destruct (catchBlock MissingParamError_message error)
        as [response caught]; simpl in Hs; rewrite Hs;
        by simpl; repeat split; auto.
    + by simpl; repeat split; auto.
Qed.

(** X8. Every request, valid or not, is counted by the rate limiter before
    anything else: the map the handler leaves is the one of
    [checkRateLimit] for the client identifier, the answer is 429 exactly
    when the limiter denies, and the three X-RateLimit headers carry the
    limit 10, the remaining budget the limiter reports ("0" on a denial)
    and its resetAt. *)
Theorem handler_follows_limiter req now retryNow key
    (m : gmap string RateLimitRecord) :
  let '(response, effects, m') := run req now retryNow key m in
  let limiter := checkRateLimit now (getClientIdentifier req) 10 60000 m in
  m' = snd limiter
  /\ (status response =? 429) = negb (allowed (fst limiter))
  /\ In (SetHeader "X-RateLimit-Limit" (HString "10")) effects
  /\ In (SetHeader "X-RateLimit-Remaining"
           (HString (if allowed (fst limiter)
                     then pretty (remaining (fst limiter)) else "0"))) effects
  /\ In (SetHeader "X-RateLimit-Reset"
           (HIsoDate (status_resetAt (fst limiter)))) effects.
Proof.
  pose proof (handler_limiter_step req now retryNow key m) as H.
  destruct (run req now retryNow key m) as [[response effects] m'].
  destruct (checkRateLimit now (getClientIdentifier req) 10 60000 m)
    as [s m1].
  exact H.
Qed.

Lemma handleAll_serve key arrivals : forall (m : gmap string RateLimitRecord),
  snd (handleAll run key arrivals m)
  = snd (serve (limiterCalls arrivals) 10 60000 m)
  /\ forall client,
       served client (fst (handleAll run key arrivals m))
       = admitted client (fst (serve (limiterCalls arrivals) 10 60000 m)).
Proof.
  induction arrivals as [|[req now] arrivals IH]; intros m; simpl; [done|].
  pose proof (handler_limiter_step req now now key m) as Hstep.
  destruct (run req now now key m) as [[response effects] m1].
  destruct (checkRateLimit now (getClientIdentifier req) 10 60000 m)
    as [s m1'].
  destruct Hstep as (-> & Hs & _).
  destruct (IH m1') as [Hm Hserved].
  destruct (handleAll run key arrivals m1') as [responses m2].
  destruct (serve (limiterCalls arrivals) 10 60000 m1') as [statuses m2'].
  simpl in *. split; [done|]. intros client.
  specialize (Hserved client). unfold served, admitted in *. simpl.
  rewrite Hs, negb_involutive.
  destruct (String.eqb (getClientIdentifier req) client && allowed s); simpl;
    by rewrite Hserved.
Qed.

(** X9. Of the N requests a client sends within one window - whatever
    they ask, valid or not, and however the requests of other clients
    fall in between - exactly min(N, 10) are answered with something else
    than 429. *)
Theorem handleAll_serves_ten client key arrivals
    (m : gmap string RateLimitRecord) :
  withinOneWindow m client 60000 (limiterCalls arrivals) ->
  served client (fst (handleAll run key arrivals m))
  = Nat.min (List.length (callsOf client (limiterCalls arrivals))) 10.
Proof.
  intros Hw. destruct (handleAll_serve key arrivals m) as [_ Hserved].
  rewrite Hserved.
  destruct (serve (limiterCalls arrivals) 10 60000 m) as [statuses m'] eqn:Hs.
  destruct (serve_one_window client 10 60000 _ m statuses m' ltac:(lia) Hw Hs)
    as [Ha _].
  simpl. lia.
Qed.

Lemma catchBlock_body error :
  exists message,
    body (fst (catchBlock MissingParamError_message error)) = ErrorBody message.
Proof. destruct error; simpl; eauto. Qed.

(** X10. The body of a response tells its status: an analysis is sent
    with 200 only, and is what [analyzeCandidate] resolved with, as it
    is; an [{error}] body is sent with 400 or 500; an
    [{error, retryAfter}] body with 429. *)
Theorem handler_body_matches_status req now retryNow key
    (m : gmap string RateLimitRecord) :
  let '(response, effects, _) := run req now retryNow key m in
  match body response with
  | AnalysisBody analysis =>
      status response = 200
      /\ exists user jobRole options,
           In (AnalyzeCandidate user jobRole options) effects
           /\ analyzeCandidate user jobRole options = inr analysis
  | ErrorBody _ => status response = 400 \/ status response = 500
  | RateLimitBody _ _ => status response = 429
  end.
Proof.
  unfold handler.
  destruct (checkRateLimit now (getClientIdentifier req) 10 60000 m)
    as [rateLimit m'].
  destruct (allowed rateLimit); simpl negb; cbv iota; [|done].
  destruct (validateUsername githubUsernameRegex_test (query req !! "username"))
    as [[]|validatedUsername]; try (by simpl; auto).
  destruct key as [[|c key]|]; try (by simpl; auto).
  destruct (parseJobRole req) as [error|jobRole].
  - destruct (catchBlock_status error) as [Hs|Hs];
      destruct (catchBlock_body error) as [message Hb];
      destruct (catchBlock MissingParamError_message error)
        as [response caught]; simpl in *; rewrite Hb; auto.
  - match goal with
    | |- context [analyzeCandidate ?u ?j ?o] =>
        destruct (analyzeCandidate u j o) as [error|analysis] eqn:Hcall
    end.
    + destruct (catchBlock_status error) as [Hs|Hs];
        destruct (catchBlock_body error) as [message Hb];
        destruct (catchBlock MissingParamError_message error)
          as [response caught]; simpl in *; rewrite Hb; auto.
    + simpl. split; [done|]. eexists _, _, _. split; [|exact Hcall].
      do 4 right. left. reflexivity.
Qed.

Lemma includes_In arr s : JsString.includes arr s = true -> In s arr.
Proof.
  unfold JsString.includes. intros H.
  apply existsb_exists in H as (x & Hx & Heq).
  apply String.eqb_eq in Heq. by subst.
Qed.

Lemma catchBlock_calls_nothing error :
  Forall (fun e => isAnalyzeCandidate e = false)
    (snd (catchBlock MissingParamError_message error)).
Proof. destruct error; simpl; repeat constructor. Qed.

(** X11. The handler calls [analyzeCandidate] at most once, and only
    with validated arguments: the username [validateUsername] returned,
    the job role [parseJobRole] returned, the non-empty key of the
    environment, and a model of the list of valid models. *)
Theorem handler_calls_upstream_validated req now retryNow key
    (m : gmap string RateLimitRecord) :
  let '(_, effects, _) := run req now retryNow key m in
  (countEffects isAnalyzeCandidate effects <= 1)%nat
  /\ Forall
       (fun e =>
          match e with
          | AnalyzeCandidate user jobRole options =>
              validateUsername githubUsernameRegex_test (query req !! "username")
              = inr user
              /\ parseJobRole req = inr jobRole
              /\ key = Some (openai_api_key options)
              /\ openai_api_key options <> ""
              /\ In (model options)
                   ["gpt-4o"; "gpt-4-turbo"; "gpt-4"; "gpt-3.5-turbo"]
              /\ include_all_commits options
                 = parseBoolean (query req !! "include_all_commits")
          | _ => True
          end)
       effects.
Proof.
  unfold handler.
  destruct (checkRateLimit now (getClientIdentifier req) 10 60000 m)
    as [rateLimit m'].
  destruct (allowed rateLimit); simpl negb; cbv iota;
    [|by simpl; split; [unfold countEffects; simpl; lia | repeat constructor]].
  destruct (validateUsername githubUsernameRegex_test (query req !! "username"))
    as [[]|validatedUsername] eqn:Huser;
    try (by simpl; split; [unfold countEffects; simpl; lia | repeat constructor]).
  destruct key as [[|c key]|];
    try (by simpl; split; [unfold countEffects; simpl; lia | repeat constructor]).
  destruct (parseJobRole req) as [error|jobRole] eqn:Hrole.
  - destruct error; simpl;
      (split; [unfold countEffects; simpl; lia | repeat constructor]).
  - set (model :=
           match
             (if absent (query req !! "openai_model")
              then Some (QString "gpt-4o") else query req !! "openai_model")
           with
           | Some (QString m0) =>
               if JsString.includes
                    ["gpt-4o"; "gpt-4-turbo"; "gpt-4"; "gpt-3.5-turbo"] m0
               then m0 else "gpt-4o"
           | _ => "gpt-4o"
           end).
    assert (In model ["gpt-4o"; "gpt-4-turbo"; "gpt-4"; "gpt-3.5-turbo"])
      as Hmodel.
    { subst model.
      destruct (if absent (query req !! "openai_model")
                then Some (QString "gpt-4o") else query req !! "openai_model")
        as [[m0|]|]; try (simpl; tauto).
      destruct (JsString.includes _ m0) eqn:Hin;
        [by apply includes_In | simpl; tauto]. }
    match goal with
    | |- context [analyzeCandidate ?u ?j ?o] =>
        destruct (analyzeCandidate u j o) as [error|analysis]
    end.
    + destruct error; simpl;
        (split; [unfold countEffects; simpl; lia|]);
        repeat (apply List.Forall_cons; [first [exact I | idtac]|]);
        try apply List.Forall_nil; repeat split; (done || exact Hmodel).
    + simpl. split; [unfold countEffects; simpl; lia|].
      repeat (apply List.Forall_cons; [first [exact I | idtac]|]);
        try apply List.Forall_nil; repeat split; (done || exact Hmodel).
Qed.



(** X13. The handler reads the request through two headers, the peer
    address and nine query parameters, and through nothing else: two
    requests that agree on them get the same response, the same effects
    and leave the same rate-limit map. *)
Theorem handler_reads_only req1 req2 now retryNow key
    (m : gmap string RateLimitRecord) :
  Forall (fun name => headers req1 !! name = headers req2 !! name)
    ["x-forwarded-for"; "x-real-ip"] ->
  socket_remoteAddress req1 = socket_remoteAddress req2 ->
  Forall (fun name => query req1 !! name = query req2 !! name)
    ["username"; "include_all_commits"; "cache_seconds"; "openai_model";
     "job_title"; "required_skills"; "nice_to_have_skills"; "seniority";
     "focus"] ->
  run req1 now retryNow key m = run req2 now retryNow key m.
Proof.
  intros Hh Hs Hq.
  repeat match goal with
         | H : Forall _ (_ :: _) |- _ =>
             let E := fresh "E" in
             apply Forall_cons_iff in H as [E H]; cbv beta in E
         end.
  unfold handler, parseJobRole, getClientIdentifier.
  rewrite Hs, E, E0, E1, E2, E3, E4, E5, E6, E7, E8, E9. reflexivity.
Qed.

End AnalyzeFurther.

Lemma handleAll_serves_ten_witness :
  let bad := requestOf "198.51.100.4" (queryOf "invalid@user" "mid" "frontend") in
  let good := requestOf "198.51.100.4" (queryOf "octocat" "mid" "frontend") in
  let other := requestOf "203.0.113.7" (queryOf "octocat" "mid" "frontend") in
  let arrivals :=
    [(good, 0); (bad, 1); (other, 2); (good, 3); (bad, 4); (good, 5); (good, 6);
     (bad, 7); (good, 8); (good, 9); (good, 10); (good, 11); (other, 12);
     (good, 60000)] in
  served "198.51.100.4"
    (fst (handleAll exampleHandler (Some "sk-test") arrivals ∅)) = 10%nat.
Proof.
  apply (handleAll_serves_ten githubUsernameGrammar
           (fun missed => "Missing params: " ++ JsString.join ", " missed)
           (fun _ => None) (fun _ => None) (fun _ def _ _ => def) 1800 0 86400
           exampleAnalyzer "198.51.100.4" (Some "sk-test")).
  unfold withinOneWindow, opensWindow. rewrite lookup_empty.
  vm_compute. split; [exact I | repeat constructor; discriminate].
Defined.


Lemma handler_reads_only_witness :
  let params := queryOf "octocat" "mid" "frontend" in
  exampleHandler
    {| headers := {["authorization" := "Bearer x"]};
       socket_remoteAddress := Some "198.51.100.4";
       query := query (requestOf "198.51.100.4" (("debug", "1") :: params)) |}
    0 0 (Some "sk-test") ∅
  = exampleHandler (requestOf "198.51.100.4" params) 0 0 (Some "sk-test") ∅.
Proof.
  apply (handler_reads_only githubUsernameGrammar
           (fun missed => "Missing params: " ++ JsString.join ", " missed)
           (fun _ => None) (fun _ => None) (fun _ def _ _ => def) 1800 0 86400
           exampleAnalyzer).
  - repeat constructor.
  - reflexivity.
  - repeat constructor.
Defined.

Lemma toLowerCase_inr name value s :
  toLowerCase name value = inr s ->
  exists raw, value = QString raw /\ s = JsString.toLowerCase raw.
Proof. destruct value; simpl; [|done]. intros H. injection H as <-. eauto. Qed.

(** X15. A job role [parseJobRole] returns is within the bounds: its
    seniority and focus are values of the two enumerations, in lower
    case, whatever the case of the parameters; its title is trimmed and
    has between 1 and 100 characters; its required skills are at least
    one and at most 50 well-formed skills, its nice-to-have skills at
    most 50. *)
Theorem parseJobRole_returns_valid_role req jobRole :
  parseJobRole req = inr jobRole ->
  In (seniority jobRole) ["junior"; "mid"; "senior"]
  /\ In (focus jobRole) ["frontend"; "backend"; "fullstack"; "data"; "infra"]
  /\ (exists raw, query req !! "seniority" = Some (QString raw)
                  /\ seniority jobRole = JsString.toLowerCase raw)
  /\ trimmed (title jobRole)
  /\ 1 <= JsString.length (title jobRole) <= 100
  /\ required_skills jobRole <> []
  /\ Forall wellFormedSkill (required_skills jobRole)
  /\ Z.of_nat (List.length (required_skills jobRole)) <= 50
  /\ Forall wellFormedSkill (nice_to_have_skills jobRole)
  /\ Z.of_nat (List.length (nice_to_have_skills jobRole)) <= 50.
Proof.
  unfold parseJobRole.
  destruct (query req !! "seniority") as [seniorityParam|]; [|done].
  destruct (query req !! "focus") as [focusParam|]; [|done].
  destruct (absent _ || absent _ || absent _ || absent _); [done|].
  destruct (validateStringInput (query req !! "job_title") "job_title" 100)
    as [|validatedJobTitle] eqn:Htitle; [done|].
  destruct (validateSkills (query req !! "required_skills") "required_skills" true)
    as [|requiredSkills] eqn:Hrequired; [done|].
  destruct (validateSkills (query req !! "nice_to_have_skills")
              "nice_to_have_skills" false)
    as [|niceSkills] eqn:Hnice; [done|].
  cbn [bind].
  destruct (toLowerCase "seniority" seniorityParam)
    as [|lowerSeniority] eqn:Hseniority; [done|].
  cbn [bind].
  destruct (JsString.includes ["junior"; "mid"; "senior"] lowerSeniority)
    eqn:HinS; [|done].
  cbn [negb].
  destruct (toLowerCase "focus" focusParam) as [|lowerFocus] eqn:Hfocus; [done|].
  cbn [bind].
  destruct (JsString.includes
              ["frontend"; "backend"; "fullstack"; "data"; "infra"] lowerFocus)
    eqn:HinF; [|done].
  cbn [negb]. intros H. injection H as <-. cbn [seniority focus title
    required_skills nice_to_have_skills].
  apply validateStringInput_sound in Htitle as (raw & _ & -> & Hlen).
  apply validateSkills_sound in Hrequired as (Hwf & Hcount & Hne).
  apply validateSkills_sound in Hnice as (Hwf' & Hcount' & _).
  apply toLowerCase_inr in Hseniority as (rawS & -> & ->).
  split; [by apply includes_In|]. split; [by apply includes_In|].
  split; [eauto|]. split; [apply trim_idempotent|].
  repeat split; auto; lia.
Qed.

Lemma parseJobRole_returns_valid_role_witness :
  let req :=
    requestOf "198.51.100.4"
      [("job_title", "  Staff Engineer "); ("required_skills", "Go, ,Rust");
       ("seniority", "SENIOR"); ("focus", "Infra")] in
  parseJobRole req
  = inr {| title := "Staff Engineer"; required_skills := ["Go"; "Rust"];
           nice_to_have_skills := []; seniority := "senior"; focus := "infra" |}
  /\ In "senior" ["junior"; "mid"; "senior"].
Proof.
  intros req. split; [vm_compute; reflexivity|].
  apply (parseJobRole_returns_valid_role req
           {| title := "Staff Engineer"; required_skills := ["Go"; "Rust"];
              nice_to_have_skills := []; seniority := "senior";
              focus := "infra" |}).
  vm_compute. reflexivity.
Defined.


(** ** The data aggregator, further *)

Lemma per_year_per_month (commits age : Z) :
  (inject_Z commits / inject_Z age
   == 12 * (inject_Z commits / inject_Z age / 12))%Q.
Proof. symmetry. apply Qmult_div_r. discriminate. Qed.

(** X17. The two commit classifiers never disagree: of the nine pairs of
    a frequency and a consistency only five occur - a low frequency with
    a sporadic or consistent rhythm, a medium frequency with a consistent
    or very consistent one, a high frequency with a very consistent
    one. *)
Theorem commit_signals_cohere commits age :
  In (calculateCommitFrequency commits age,
      calculateCommitConsistency commits age)
    [("low", "sporadic"); ("low", "consistent"); ("medium", "consistent");
     ("medium", "very_consistent"); ("high", "very_consistent")].
Proof.
  unfold calculateCommitFrequency, calculateCommitConsistency.
  destruct (age =? 0); [simpl; tauto|].
  pose proof (per_year_per_month commits age) as Hrel.
  set (perYear := (inject_Z commits / inject_Z age)%Q) in *.
  set (perMonth := (perYear / 12)%Q) in *.
  destruct (Qltb perYear 50) eqn:E50;
    [apply Qltb_lt in E50 | apply Qltb_ge in E50];
    (destruct (Qltb perYear 200) eqn:E200;
     [apply Qltb_lt in E200 | apply Qltb_ge in E200]);
    (destruct (Qltb perMonth 2) eqn:E2;
     [apply Qltb_lt in E2 | apply Qltb_ge in E2]);
    (destruct (Qltb perMonth 10) eqn:E10;
     [apply Qltb_lt in E10 | apply Qltb_ge in E10]);
    simpl; try tauto; exfalso; lra.
Qed.

(** A ratio of two counts against a fraction, in integers. *)
Lemma ratio_lt (a n p : Z) (q : positive) :
  0 < n ->
  Qltb (inject_Z a / inject_Z n) (p # q) = (a * Z.pos q <? p * n).
Proof.
  intros Hn.
  assert ((inject_Z a / inject_Z n < p # q)%Q <-> a * Z.pos q < p * n) as Hiff.
  { destruct n as [|n|n]; try lia.
    unfold Qlt, Qdiv, Qmult, Qinv, inject_Z. simpl. split; intros; nia. }
  destruct (Z.ltb_spec (a * Z.pos q) (p * n)) as [H|H].
  - apply Qltb_lt. by apply Hiff.
  - apply Qltb_ge. apply Qnot_lt_le. intros Hlt. apply Hiff in Hlt. lia.
Qed.

Lemma longer_than_30_longer_than_20 repo :
  hasDescriptionLongerThan 30 repo = true ->
  hasDescriptionLongerThan 20 repo = true.
Proof.
  unfold hasDescriptionLongerThan. destruct (description repo) as [d|]; [|done].
  intros H. apply andb_prop in H as [Ht Hlen]. rewrite Ht. simpl.
  apply Z.gtb_lt in Hlen. apply Z.gtb_lt. lia.
Qed.

Lemma described_counts (repositories : list TopRepository) :
  (List.length (List.filter (hasDescriptionLongerThan 30) repositories)
   <= List.length (List.filter (hasDescriptionLongerThan 20) repositories)
   <= List.length repositories)%nat.
Proof.
  induction repositories as [|repo l IH]; simpl; [lia|].
  pose proof (longer_than_30_longer_than_20 repo) as H.
  destruct (hasDescriptionLongerThan 30 repo);
    destruct (hasDescriptionLongerThan 20 repo); simpl; try lia.
  all: by specialize (H eq_refl).
Qed.

(** X18. The documentation signal never ranks above the README quality:
    for every list of repositories, a "poor" quality comes with a "low"
    signal and an "average" quality with a "low" or "medium" one; only a
    "strong" quality can come with a "high" signal. *)
Theorem documentation_follows_readme (repositories : list TopRepository) :
  In (assessReadmeQuality repositories, assessDocumentationSignal repositories)
    [("poor", "low"); ("average", "low"); ("average", "medium");
     ("strong", "low"); ("strong", "medium"); ("strong", "high")].
Proof.
  unfold assessReadmeQuality, assessDocumentationSignal.
  pose proof (described_counts repositories) as Hcounts.
  destruct (Z.eqb_spec (Z.of_nat (List.length repositories)) 0) as [|Hn];
    [simpl; tauto|].
  rewrite !ratio_lt by lia.
  repeat match goal with
         | |- context [?x <? ?y] => destruct (Z.ltb_spec x y)
         end; simpl; try tauto; exfalso; lia.
Qed.

(** The cut points of the two heuristics, in counts: of n > 0
    repositories with a described (descriptions longer than 20
    characters), the quality is "poor" exactly when 10a < 3n and "strong"
    exactly when 10a >= 7n; with b descriptions longer than 30
    characters, the signal is "low" exactly when 10b < 4n and "high"
    exactly when 10b >= 7n. *)
Theorem assess_cut_points (repositories : list TopRepository) :
  repositories <> [] ->
  let n := Z.of_nat (List.length repositories) in
  let a := Z.of_nat (List.length
                       (List.filter (hasDescriptionLongerThan 20) repositories)) in
  let b := Z.of_nat (List.length
                       (List.filter (hasDescriptionLongerThan 30) repositories)) in
  (assessReadmeQuality repositories = "poor" <-> 10 * a < 3 * n)
  /\ (assessReadmeQuality repositories = "strong" <-> 7 * n <= 10 * a)
  /\ (assessDocumentationSignal repositories = "low" <-> 10 * b < 4 * n)
  /\ (assessDocumentationSignal repositories = "high" <-> 7 * n <= 10 * b).
Proof.
  intros Hne n a b.
  unfold assessReadmeQuality, assessDocumentationSignal.
  assert (0 < n) as Hn by (subst n; destruct repositories; [done | simpl; lia]).
  destruct (Z.eqb_spec (Z.of_nat (List.length repositories)) 0) as [|_];
    [lia|].
  fold n a b. rewrite !ratio_lt by lia.
  repeat match goal with
         | |- context [?x <? ?y] => destruct (Z.ltb_spec x y)
         end; repeat split; intros; try done; try lia.
Qed.

Lemma assess_cut_points_witness :
  let described :=
    {| repo_name := "cli"; stars := 3; forks := 0; is_original_work := true;
       description := Some "A command line client" |} in
  let bare :=
    {| repo_name := "notes"; stars := 0; forks := 0; is_original_work := true;
       description := None |} in
  assessReadmeQuality [described; bare; bare] = "average"
  /\ assessDocumentationSignal [described; bare; bare] = "low".
Proof.
  intros described bare.
  destruct (assess_cut_points [described; bare; bare])
    as (Hpoor & Hstrong & Hlow & Hhigh); [discriminate|].
  split; [reflexivity|]. apply Hlow. vm_compute. reflexivity.
Defined.

Lemma ratio_bounds (c d : Z) :
  0 <= c -> c < d -> (0 <= inject_Z c / inject_Z d)%Q /\ (inject_Z c / inject_Z d < 1)%Q.
Proof.
  intros Hc Hd. destruct d as [|d|d]; try lia.
  unfold Qle, Qlt, Qdiv, Qmult, Qinv, inject_Z. simpl. split; nia.
Qed.

(** X19. For a non-empty list of repositories and a non-negative
    contributed-to count c, the team ratio is c / (n + c), lies in
    [0, 1) - the cap at 1 never bites - and the solo ratio is what is
    left to 1, so it is positive. *)
Theorem collaboration_ratios (repositories : list TopRepository) (c : Z) :
  repositories <> [] -> 0 <= c ->
  let signals := calculateCollaborationSignals repositories c in
  let n := Z.of_nat (List.length repositories) in
  (team_projects_ratio signals == inject_Z c / inject_Z (n + c))%Q
  /\ (0 <= team_projects_ratio signals)%Q
  /\ (team_projects_ratio signals < 1)%Q
  /\ (solo_projects_ratio signals + team_projects_ratio signals == 1)%Q
  /\ (0 < solo_projects_ratio signals)%Q.
Proof.
  intros Hne Hc signals n. subst signals.
  assert (0 < n) as Hn by (subst n; destruct repositories; [done | simpl; lia]).
  unfold calculateCollaborationSignals. fold n.
  destruct (Z.eqb_spec n 0); [lia|]. simpl.
  destruct (ratio_bounds c (n + c)) as [H0 H1]; [lia | lia |].
  assert (Qmin (inject_Z c / inject_Z (n + c)) 1
          == inject_Z c / inject_Z (n + c))%Q as Hmin
    by (apply Q.min_l; lra).
  rewrite Hmin. repeat split; lra.
Qed.

Lemma collaboration_ratios_witness :
  let repo :=
    {| repo_name := "cli"; stars := 3; forks := 0; is_original_work := true;
       description := None |} in
  (team_projects_ratio (calculateCollaborationSignals [repo; repo; repo] 1)
   == 1 # 4)%Q.
Proof.
  intros repo.
  destruct (collaboration_ratios [repo; repo; repo] 1) as (Hteam & _);
    [discriminate | lia |].
  rewrite Hteam. reflexivity.
Defined.

















(** X22. For a user the profile query returns, the profile carries the
    two counts as they are, and its account age is the number of whole
    365-day years since createdAt, but never less than 1: it is 1 until
    two such years have passed, from the first year on it brackets the
    elapsed time, and it does not decrease as time passes. *)
Theorem fetchUserProfile_whole_years now user :
  exists p,
    fetchUserProfile now (inr (ResData (Some user))) = inr p
    /\ public_repos p = repositories_totalCount user
    /\ followers p = followers_totalCount user
    /\ (let elapsed := now - createdAt user in
        (elapsed < 2 * yearMs -> account_age_years p = 1)
        /\ (yearMs <= elapsed ->
            account_age_years p * yearMs <= elapsed
            < (account_age_years p + 1) * yearMs))
    /\ forall later, now <= later ->
         exists p',
           fetchUserProfile later (inr (ResData (Some user))) = inr p'
           /\ account_age_years p <= account_age_years p'.
Proof.
  eexists. split; [reflexivity|]. simpl.
  change (1000 * 60 * 60 * 24 * 365) with yearMs.
  assert (yearMs = 31536000000) as HY by reflexivity.
  split; [done|]. split; [done|]. split; [split|].
  - intros H. pose proof (Z.div_lt_upper_bound (now - createdAt user) yearMs 2).
    lia.
  - intros H.
    pose proof (Z.mul_div_le (now - createdAt user) yearMs ltac:(lia)).
    pose proof (Z.mul_succ_div_gt (now - createdAt user) yearMs ltac:(lia)).
    pose proof (Z.div_le_lower_bound (now - createdAt user) yearMs 1
                  ltac:(lia) ltac:(lia)).
    lia.
  - intros later Hlater. eexists. split; [reflexivity|]. simpl.
    change (1000 * 60 * 60 * 24 * 365) with yearMs.
    pose proof (Z.div_le_mono (now - createdAt user) (later - createdAt user)
                  yearMs ltac:(lia) ltac:(lia)).
    lia.
Qed.

(** ** The scoring client, further *)

Lemma lookupMember_setMember_ne key key' v members :
  key' <> key ->
  lookupMember key' (setMember key v members) = lookupMember key' members.
Proof.
  intros Hne. induction members as [|[k w] members IH]; simpl.
  - destruct (String.eqb_spec key key'); [congruence | done].
  - destruct (String.eqb_spec k key) as [->|Hk]; simpl.
    + destruct (String.eqb_spec key key'); [congruence | done].
    + destruct (String.eqb_spec k key'); [done | exact IH].
Qed.

Lemma clamp_not_reclamped n :
  let clamped := Math_max (Num 0) (Math_min (Num 100) n) in
  number_ltb clamped (Num 0) || number_ltb (Num 100) clamped = false.
Proof.
  destruct n as [|q| |]; [reflexivity|..];
    apply in_range_not_clamped, clamp_in_range; discriminate.
Qed.

(** The four sections, read off a checked analysis. *)
Lemma checkAnalysis_inr analysis out :
  checkAnalysis analysis = inr out ->
  exists members,
    analysis = JObject members
    /\ falsy (lookupMember "engineer_summary" members) = false
    /\ falsy (lookupMember "job_fit_analysis" members) = false
    /\ falsy (lookupMember "hiring_recommendation" members) = false
    /\ falsy (lookupMember "recommendations" members) = false.
Proof.
  unfold checkAnalysis.
  destruct analysis as [| | | | |members]; try done.
  simpl getProperty.
  destruct (falsy (lookupMember "engineer_summary" members)) eqn:H1; [done|].
  destruct (falsy (lookupMember "job_fit_analysis" members)) eqn:H2; [done|].
  destruct (falsy (lookupMember "hiring_recommendation" members)) eqn:H3;
    [done|].
  destruct (falsy (lookupMember "recommendations" members)) eqn:H4; [done|].
  intros _. by exists members.
Qed.

(** What [checkAnalysis] returns: the analysis itself, or the analysis
    with a number written at
    [hiring_recommendation.confidence_percentage], a number that a
    second check leaves alone. *)
Lemma checkAnalysis_shape analysis out :
  checkAnalysis analysis = inr out ->
  out = analysis
  \/ exists members recommendation n,
       analysis = JObject members
       /\ lookupMember "hiring_recommendation" members
          = Some (JObject recommendation)
       /\ is_Some (lookupMember "confidence_percentage" recommendation)
       /\ number_ltb n (Num 0) || number_ltb (Num 100) n = false
       /\ out = JObject
                  (setMember "hiring_recommendation"
                     (JObject (setMember "confidence_percentage" (JNumber n)
                                 recommendation))
                     members).
Proof.
  intros Hcheck. destruct (checkAnalysis_inr _ _ Hcheck)
    as (members & -> & H1 & H2 & H3 & H4).
  unfold checkAnalysis in Hcheck. simpl getProperty in Hcheck.
  rewrite H1, H2, H3, H4 in Hcheck. simpl orb in Hcheck. cbv iota in Hcheck.
  destruct (lookupMember "hiring_recommendation" members)
    as [[| | | | |recommendation]|] eqn:Hr;
    try (injection Hcheck as <-; by left).
  destruct (lookupMember "confidence_percentage" recommendation)
    as [confidence|] eqn:Hc; [|injection Hcheck as <-; by left].
  match type of Hcheck with
  | (if ?b then _ else _) = _ => destruct b
  end; [|injection Hcheck as <-; by left].
  destruct (ToNumber _) as [e|n]; [done|]. simpl in Hcheck.
  injection Hcheck as <-. right.
  eexists members, recommendation, _. repeat split; eauto.
  apply clamp_not_reclamped.
Qed.

(** X23. Checking is idempotent: an analysis the scoring client has
    accepted, with its confidence rewritten or not, passes the check
    again unchanged. *)
Theorem checkAnalysis_idempotent analysis out :
  checkAnalysis analysis = inr out ->
  checkAnalysis out = inr out.
Proof.
  intros Hcheck.
  destruct (checkAnalysis_shape _ _ Hcheck)
    as [->|(members & recommendation & n & -> & Hr & _ & Hn & ->)]; [done|].
  destruct (checkAnalysis_inr _ _ Hcheck)
    as (members' & Heq & H1 & H2 & H3 & H4).
  injection Heq as <-.
  unfold checkAnalysis. simpl getProperty.
  rewrite (lookupMember_setMember_ne _ "engineer_summary") by discriminate.
  rewrite (lookupMember_setMember_ne _ "job_fit_analysis") by discriminate.
  rewrite (lookupMember_setMember_ne _ "recommendations") by discriminate.
  rewrite lookupMember_setMember, H1, H2, H4. simpl.
  rewrite lookupMember_setMember, Hn. done.
Qed.

Lemma checkAnalysis_idempotent_witness :
  checkAnalysis (analysisWithConfidence (JNumber (Num 100)))
  = inr (analysisWithConfidence (JNumber (Num 100))).
Proof.
  apply (checkAnalysis_idempotent (analysisWithConfidence (JNumber (Num 150)))).
  reflexivity.
Defined.

(** X24. The check changes nothing but the confidence: every property of
    the analysis other than hiring_recommendation, and every member of
    hiring_recommendation other than confidence_percentage, is returned
    as it was received; and what is returned has its four sections. *)
Theorem checkAnalysis_frame analysis out :
  checkAnalysis analysis = inr out ->
  (forall key, key <> "hiring_recommendation" ->
               getProperty out key = getProperty analysis key)
  /\ (exists before after,
        getProperty analysis "hiring_recommendation" = Some before
        /\ getProperty out "hiring_recommendation" = Some after
        /\ forall key, key <> "confidence_percentage" ->
                       getProperty after key = getProperty before key)
  /\ falsy (getProperty out "engineer_summary") = false
  /\ falsy (getProperty out "job_fit_analysis") = false
  /\ falsy (getProperty out "hiring_recommendation") = false
  /\ falsy (getProperty out "recommendations") = false.
Proof.
  intros Hcheck.
  destruct (checkAnalysis_inr _ _ Hcheck)
    as (members & -> & H1 & H2 & H3 & H4).
  destruct (checkAnalysis_shape _ _ Hcheck)
    as [->|(members' & recommendation & n & Heq & Hr & _ & Hn & ->)].
  - split; [done|]. split; [|by simpl].
    simpl. destruct (lookupMember "hiring_recommendation" members)
      as [before|]; [|done].
    by exists before, before.
  - injection Heq as <-. simpl getProperty.
    split; [intros key Hkey; by apply lookupMember_setMember_ne|].
    split.
    + eexists _, _. rewrite Hr, lookupMember_setMember.
      split; [done|]. split; [done|]. intros key Hkey. simpl.
      by apply lookupMember_setMember_ne.
    + rewrite (lookupMember_setMember_ne _ "engineer_summary") by discriminate.
      rewrite (lookupMember_setMember_ne _ "job_fit_analysis") by discriminate.
      rewrite (lookupMember_setMember_ne _ "recommendations") by discriminate.
      rewrite lookupMember_setMember. by simpl.
Qed.

Lemma checkAnalysis_frame_witness :
  getProperty (analysisWithConfidence (JNumber (Num 100))) "recommendations"
  = getProperty (analysisWithConfidence (JNumber (Num 150))) "recommendations".
Proof.
  apply (checkAnalysis_frame (analysisWithConfidence (JNumber (Num 150)))
           (analysisWithConfidence (JNumber (Num 100))));
    [reflexivity | discriminate].
Defined.

Lemma checkAnalysis_number_witness :
  exists n',
    confidencePercentage (analysisWithConfidence (JNumber (Num 100)))
    = Some (JNumber n')
    /\ inConfidenceRange (JNumber n') = true.
Proof.
  destruct (checkAnalysis_number (analysisWithConfidence (JNumber (Num (-20))))
              (analysisWithConfidence (JNumber (Num 0))) (Num (-20)))
    as (n0 & _ & Hrange & _); [reflexivity | reflexivity | discriminate |].
  destruct (checkAnalysis_number (analysisWithConfidence (JNumber (Num 150)))
              (analysisWithConfidence (JNumber (Num 100))) (Num 150))
    as (n' & Hn' & Hrange' & _); [reflexivity | reflexivity | discriminate |].
  exists n'. split; [exact Hn' | exact Hrange'].
Defined.

Lemma ToNumber_no_AxiosError v status dataErrorMessage message :
  ToNumber v <> inl (AxiosError status dataErrorMessage message).
Proof.
  unfold ToNumber. destruct v; try done; by destruct (toStringThrows _).
Qed.

Lemma checkAnalysis_no_AxiosError analysis status dataErrorMessage message :
  checkAnalysis analysis <> inl (AxiosError status dataErrorMessage message).
Proof.
  intros H. unfold checkAnalysis in H.
  destruct analysis as [| | | | |members]; simpl in H; try discriminate.
  destruct (_ || _ || _ || _); [discriminate|].
  destruct (lookupMember "hiring_recommendation" members)
    as [[| | | | |recommendation]|]; try discriminate.
  destruct (lookupMember "confidence_percentage" recommendation)
    as [confidence|]; [|discriminate].
  match type of H with
  | (if ?b then _ else _) = _ => destruct b
  end; [|discriminate].
  destruct (ToNumber _) as [e|n] eqn:E; simpl in H; [|discriminate].
  injection H as ->. by apply ToNumber_no_AxiosError in E.
Qed.

(** X26. The scoring client never lets an error of the HTTP client
    through as it is: a rejection of the request by axios is thrown as a
    [CustomError] of type API_ERROR - "Invalid OpenAI API key" for a 401,
    "OpenAI API rate limit exceeded" for a 429 - any other rejection is
    thrown again unchanged, and nothing that follows a response throws an
    axios error. *)
Theorem analyzeWithOpenAI_wraps_axios_errors JSON_parse axios_post
    prompt input c key model :
  let result :=
    analyzeWithOpenAI JSON_parse axios_post prompt input (Some (String c key))
      model in
  match axios_post model prompt input (String c key) with
  | inl (AxiosError status dataErrorMessage message) =>
      exists text,
        result = inl (CustomError text API_ERROR)
        /\ (status = Some 401 -> text = "Invalid OpenAI API key")
        /\ (status = Some 429 -> text = "OpenAI API rate limit exceeded")
  | inl error => result = inl error
  | inr _ =>
      forall status dataErrorMessage message,
        result <> inl (AxiosError status dataErrorMessage message)
  end.
Proof.
  unfold analyzeWithOpenAI.
  destruct (axios_post model prompt input (String c key))
    as [[missed|text type|status dataErrorMessage message|text]|content];
    simpl; try done.
  - destruct status as [[|p|p]|]; try (eexists; repeat split; done).
    destruct (Pos.eq_dec p 401%positive) as [->|H401];
      [eexists; repeat split; done|].
    destruct (Pos.eq_dec p 429%positive) as [->|H429];
      [eexists; repeat split; done|].
    assert (forall A (a b d : A),
              match Z.pos p with 401 => a | 429 => b | _ => d end = d) as Hother.
    { intros A a b d.
      repeat (destruct p as [p|p|]; try reflexivity); congruence. }
    rewrite Hother. eexists. repeat split; intros H; congruence.
  - intros status dataErrorMessage message.
    destruct content as [[|d content]|]; try done.
    destruct (JSON_parse (String d content)) as [analysis|]; [|done].
    pose proof (checkAnalysis_no_AxiosError analysis) as Hno.
    destruct (checkAnalysis analysis) as [[]|]; try done.
    exfalso. eapply Hno. reflexivity.
Qed.

(** ** The analyzer *)

(** X27. The analyzer consults the scoring engine through one request
    only: the one with the model and the key of its options, for the
    aggregate of the user with the job role attached and the
    top-repositories list empty. Two scoring engines that answer this
    request alike give the same analysis or the same error. *)
Theorem analyzeCandidate_one_scoring_request fetchAll loadSystemPrompt
    JSON_parse axios_post axios_post' user jobRole options :
  (forall prompt input,
     job_role input = Some jobRole ->
     username (candidate input) = user ->
     top_repositories (github_stats input) = [] ->
     axios_post (model options) prompt input (openai_api_key options)
     = axios_post' (model options) prompt input (openai_api_key options)) ->
  Analyzer.analyzeCandidate fetchAll loadSystemPrompt JSON_parse axios_post
    user jobRole options
  = Analyzer.analyzeCandidate fetchAll loadSystemPrompt JSON_parse axios_post'
      user jobRole options.
Proof.
  intros Hsame. unfold Analyzer.analyzeCandidate.
  destruct (fetchAll user _) as [error|[[stats topLangs] profile]]; [done|].
  simpl. destruct loadSystemPrompt as [error|prompt]; [done|]. simpl.
  unfold analyzeWithOpenAI.
  destruct (openai_api_key options) as [|c key] eqn:Hkey; [done|].
  rewrite Hsame by done. reflexivity.
Qed.

Lemma analyzeCandidate_one_scoring_request_witness :
  let options :=
    {| include_all_commits := None; openai_api_key := "sk-test";
       model := "gpt-4o" |} in
  let role :=
    {| title := "Engineer"; required_skills := ["JS"]; nice_to_have_skills := [];
       seniority := "mid"; focus := "frontend" |} in
  Analyzer.analyzeCandidate exampleFetch (inr "prompt")
    (fun _ => Some (analysisWithConfidence (JNumber (Num 85))))
    (fun _ _ _ _ => inr (Some "{ ... }")) "octocat" role options
  = Analyzer.analyzeCandidate exampleFetch (inr "prompt")
      (fun _ => Some (analysisWithConfidence (JNumber (Num 85))))
      (fun _ _ input _ =>
         match job_role input with
         | Some _ => inr (Some "{ ... }")
         | None => inl (OtherError "no job role")
         end)
      "octocat" role options.
Proof.
  intros options role.
  apply (analyzeCandidate_one_scoring_request exampleFetch (inr "prompt")
           (fun _ => Some (analysisWithConfidence (JNumber (Num 85))))
           (fun _ _ _ _ => inr (Some "{ ... }"))
           (fun _ _ input _ =>
              match job_role input with
              | Some _ => inr (Some "{ ... }")
              | None => inl (OtherError "no job role")
              end)
           "octocat" role options).
  intros prompt input Hrole _ _. by rewrite Hrole.
Defined.

(** X28. When the fetches of the user reject, the handler answers by the
    class of the rejection - 500 with its message for a [CustomError] -
    with the error cache headers, after the one call of the analyzer,
    and the scoring engine plays no part. *)
Theorem github_failure_answered_by_class regex mpMsg pb pi rcs def mn mx
    fetchAll loadSystemPrompt JSON_parse axios_post
    req now retryNow key (m : gmap string RateLimitRecord) user error :
  reachesJobRole regex req now key m = true ->
  validateUsername regex (query req !! "username") = inr user ->
  (exists jobRole, parseJobRole req = inr jobRole) ->
  (forall flag, fetchAll user flag = inl error) ->
  let '(response, effects, _) :=
    handler regex mpMsg pb pi rcs def mn mx
      (Analyzer.analyzeCandidate fetchAll loadSystemPrompt JSON_parse axios_post)
      req now retryNow key m in
  response = fst (catchBlock mpMsg error)
  /\ countEffects isAnalyzeCandidate effects = 1%nat
  /\ countEffects isSetErrorCacheHeaders effects = 1%nat
  /\ countEffects isSetCacheHeaders effects = 0%nat.
Proof.
  unfold reachesJobRole, handler. intros Hreach Huser [jobRole Hrole] Hfetch.
  destruct (checkRateLimit now (getClientIdentifier req) 10 60000 m)
    as [rateLimit m'].
  simpl fst in Hreach. destruct (allowed rateLimit); [|done].
  rewrite Huser in *. destruct key as [[|c key]|]; [done| |done].
  simpl negb. cbv iota. rewrite Hrole.
  unfold Analyzer.analyzeCandidate at 1. rewrite Hfetch.
  cbn [aggregateGitHubData bind].
  destruct (catchBlock_effects mpMsg error) as (He & Hc & Ha & _).
  destruct (catchBlock mpMsg error) as [response caught]. cbn [fst snd] in *.
  rewrite !countEffects_app, He, Hc, Ha. by repeat split.
Qed.

Lemma github_failure_answered_by_class_witness :
  let notFound := CustomError "Could not fetch user." API_ERROR in
  let '(response, effects, _) :=
    handler githubUsernameGrammar
      (fun missed => "Missing params: " ++ JsString.join ", " missed)
      (fun _ => None) (fun _ => None) (fun _ def _ _ => def) 1800 0 86400
      (Analyzer.analyzeCandidate (fun _ _ => inl notFound) (inr "prompt")
         (fun _ => None) (fun _ _ _ _ => inr None))
      (requestOf "198.51.100.4" (queryOf "octocat" "mid" "frontend"))
      0 0 (Some "sk-test") ∅ in
  response = {| status := 500; body := ErrorBody "Could not fetch user." |}
  /\ countEffects isAnalyzeCandidate effects = 1%nat
  /\ countEffects isSetErrorCacheHeaders effects = 1%nat
  /\ countEffects isSetCacheHeaders effects = 0%nat.
Proof.
  intros notFound.
  apply (github_failure_answered_by_class githubUsernameGrammar
           (fun missed => "Missing params: " ++ JsString.join ", " missed)
           (fun _ => None) (fun _ => None) (fun _ def _ _ => def) 1800 0 86400
           (fun _ _ => inl notFound) (inr "prompt")
           (fun _ => None) (fun _ _ _ _ => inr None)
           (requestOf "198.51.100.4" (queryOf "octocat" "mid" "frontend"))
           0 0 (Some "sk-test") ∅ "octocat" notFound).
  - vm_compute. reflexivity.
  - vm_compute. reflexivity.
  - eexists. vm_compute. reflexivity.
  - reflexivity.
Defined.

(** ** The handler of api/analyze.js, further *)

Section ApiAnalyzeFurther.

Variable MissingParamError_message : list string -> string.
Variable parseBoolean : option QueryValue -> option bool.
Variable parseInt10 : option QueryValue -> option Z.
Variable resolveCacheSeconds : option Z -> Z -> Z -> Z -> Z.
Variables STATS_CARD_DEFAULT STATS_CARD_MIN STATS_CARD_MAX : Z.
Variable analyzeCandidate :
  QueryValue -> ApiAnalyze.JobRole -> ApiAnalyze.Options -> Exception + JSON.

Local Abbreviation runApi :=
  (ApiAnalyze.handler MissingParamError_message parseBoolean parseInt10
     resolveCacheSeconds STATS_CARD_DEFAULT STATS_CARD_MIN STATS_CARD_MAX
     analyzeCandidate).

Lemma api_catchBlock_shape error :
  (status (fst (ApiAnalyze.catchBlock MissingParamError_message error)) = 400
   \/ status (fst (ApiAnalyze.catchBlock MissingParamError_message error)) = 500)
  /\ Forall (fun e =>
               match e with
               | ApiAnalyze.SetHeader _ _ | ApiAnalyze.AnalyzeCandidate _ _ _ =>
                   False
               | _ => True
               end)
       (snd (ApiAnalyze.catchBlock MissingParamError_message error)).
Proof. destruct error; simpl; split; auto; repeat constructor. Qed.

(** X29. The handler of api/analyze.js has no rate-limit gate: it never
    answers 429 - its statuses are 200, 400 and 500 - and the only header
    it sets itself is Content-Type, never an X-RateLimit header. *)
Theorem api_analyze_never_limits req key :
  let '(response, effects) :=
    ApiAnalyze.handler MissingParamError_message parseBoolean parseInt10
      resolveCacheSeconds STATS_CARD_DEFAULT STATS_CARD_MIN STATS_CARD_MAX
      analyzeCandidate req key in
  (status response = 200 \/ status response = 400 \/ status response = 500)
  /\ Forall (fun e =>
               match e with
               | ApiAnalyze.SetHeader name _ => name = "Content-Type"
               | _ => True
               end) effects.
Proof.
  unfold ApiAnalyze.handler.
  destruct (query req !! "username") as [[[|c user]|]|];
    try (by simpl; split; [auto | repeat constructor]).
  all: destruct (if absent (query req !! "openai_api_key")
                 then option_map QString key
                 else query req !! "openai_api_key") as [[[|d apiKey]|]|];
    try (by simpl; split; [auto | repeat constructor]).
  all: destruct (ApiAnalyze.parseJobRole req) as [error|jobRole].
  all: try (destruct (api_catchBlock_shape error) as [Hs Hall];
            destruct (ApiAnalyze.catchBlock MissingParamError_message error)
              as [response caught]; simpl in *;
            split; [tauto|]; constructor; [done|];
            eapply List.Forall_impl; [|exact Hall];
            by intros []).
  all: match goal with
       | |- context [analyzeCandidate ?u ?j ?o] =>
           destruct (analyzeCandidate u j o) as [error|analysis]
       end.
  all: try (by simpl; split; [auto | repeat constructor]).
  all: destruct (api_catchBlock_shape error) as [Hs Hall];
    destruct (ApiAnalyze.catchBlock MissingParamError_message error)
      as [response caught]; simpl in *;
    split; [tauto|]; constructor; [done|]; constructor; [done|];
    eapply List.Forall_impl; [|exact Hall]; by intros [].
Qed.

(** X30. The handler of api/analyze.js validates neither the username
    nor the model: with a key in the environment and a job role that
    parses, it calls [analyzeCandidate] with the username parameter as
    it was received - not trimmed, of any length, of any form - and with
    any non-empty [openai_model] as the model. *)
Theorem api_analyze_passes_raw_values req c key user jobRole :
  query req !! "username" = Some user ->
  absent (Some user) = false ->
  absent (query req !! "openai_api_key") = true ->
  ApiAnalyze.parseJobRole req = inr jobRole ->
  exists options,
    In (ApiAnalyze.AnalyzeCandidate user jobRole options)
      (snd (runApi req (Some (String c key))))
    /\ ApiAnalyze.openai_api_key options = QString (String c key)
    /\ ApiAnalyze.model options
       = (if absent (query req !! "openai_model") then QString "gpt-4o"
          else default (QString "gpt-4o") (query req !! "openai_model")).
Proof.
  intros Huser Hpresent Hnokey Hrole. unfold ApiAnalyze.handler.
  rewrite Huser, Hnokey, Hrole. simpl option_map.
  eexists {| ApiAnalyze.include_all_commits := _;
             ApiAnalyze.openai_api_key := _; ApiAnalyze.model := _ |}.
  split; [|split; [reflexivity|]].
  - destruct user as [[|d user]|items]; [done| |].
    all: match goal with
         | |- context [analyzeCandidate ?u ?j ?o] =>
             destruct (analyzeCandidate u j o) as [error|analysis]
         end.
    all: try (destruct (ApiAnalyze.catchBlock MissingParamError_message error)
                as [response caught]).
    all: simpl; right; left; reflexivity.
  - simpl. by destruct (query req !! "openai_model") as [[[|e mdl]|]|].
Qed.

End ApiAnalyzeFurther.

Lemma api_analyze_passes_raw_values_witness :
  let raw := "  -not--valid@user, and longer than 39 characters  " in
  let req :=
    requestOf "198.51.100.4"
      (("openai_model", "any-model") :: queryOf raw "mid" "frontend") in
  exists options,
    In (ApiAnalyze.AnalyzeCandidate (QString raw)
          {| ApiAnalyze.title := QString "Engineer";
             ApiAnalyze.required_skills := ["JS"];
             ApiAnalyze.nice_to_have_skills := [];
             ApiAnalyze.seniority := "mid";
             ApiAnalyze.focus := "frontend" |}
          options)
      (snd (ApiAnalyze.handler (fun _ => "") (fun _ => None) (fun _ => None)
              (fun _ def _ _ => def) 1800 0 86400
              (fun _ _ _ => inr JNull) req (Some "sk-test")))
    /\ ApiAnalyze.model options = QString "any-model".
Proof.
  intros raw req.
  destruct (api_analyze_passes_raw_values (fun _ => "") (fun _ => None)
              (fun _ => None) (fun _ def _ _ => def) 1800 0 86400
              (fun _ _ _ => inr JNull) req "s" "k-test" (QString raw)
              {| ApiAnalyze.title := QString "Engineer";
                 ApiAnalyze.required_skills := ["JS"];
                 ApiAnalyze.nice_to_have_skills := [];
                 ApiAnalyze.seniority := "mid";
                 ApiAnalyze.focus := "frontend" |})
    as (options & Hin & _ & Hmodel);
    [vm_compute; reflexivity | reflexivity | vm_compute; reflexivity
    | vm_compute; reflexivity |].
  exists options. split; [exact Hin|]. rewrite Hmodel. vm_compute. reflexivity.
Defined.
